(** * ALLCools: extracting context- and strand-specific tables from an ALLC file

    A shallow embedding of [ALLCools/_extract_allc.py]: the strand collapser
    [_merge_cg_strand], the two parameter validators, the chunk merger
    [_merge_gz_files], the parallel orchestrator [_extract_allc_parallel] and
    the extractor [extract_allc] itself.

    Python values are modelled as follows.
    - [str] is [string]; the [str] methods the module calls are in [Py].
    - [int] is [Z]; [int(s)] is [Py.int], [str(n)] is [Py.str].
    - Exceptions are values of [exn]; a computation that may raise returns a
      [result], and code that also touches files or handles runs in the
      state-and-exception monad [M].
    - The file system is a finite map from paths to file texts; compression is
      transparent (every file is read and written as text through
      [open_allc] / [open_gz]). *)

From Stdlib Require Import ZArith Ascii String List Lia.
From stdpp Require Import gmap strings list fin_maps pretty.

(** ** Python string built-ins *)

Module Py.

Definition tab : ascii := "009"%char.
Definition nl : ascii := "010"%char.

Definition char_in (c : ascii) (chars : string) : bool :=
  existsb (Ascii.eqb c) (list_ascii_of_string chars).

Fixpoint lstrip_by (p : ascii -> bool) (s : string) : string :=
  match s with
  | String c r => if p c then lstrip_by p r else s
  | EmptyString => EmptyString
  end.

Definition rev_string (s : string) : string :=
  string_of_list_ascii (rev (list_ascii_of_string s)).

Definition rstrip_by (p : ascii -> bool) (s : string) : string :=
  rev_string (lstrip_by p (rev_string s)).

(** [s.lstrip(chars)], [s.rstrip(chars)], [s.strip(chars)]: [chars] is a SET
    of characters, not a prefix or suffix. *)
Definition lstrip (chars s : string) : string := lstrip_by (fun c => char_in c chars) s.
Definition rstrip (chars s : string) : string := rstrip_by (fun c => char_in c chars) s.
Definition strip (chars s : string) : string := rstrip chars (lstrip chars s).

(** [s.split(sep)] for a one-character separator; never returns the empty list. *)
Fixpoint split (sep : ascii) (s : string) : list string :=
  match s with
  | EmptyString => [EmptyString]
  | String c r =>
      if Ascii.eqb c sep then EmptyString :: split sep r
      else match split sep r with
           | f :: fs => String c f :: fs
           | [] => [String c EmptyString]
           end
  end.

(** [sep.join(l)] *)
Definition join (sep : string) (l : list string) : string := String.concat sep l.

(** [sub in s] *)
Fixpoint contains (sub s : string) : bool :=
  String.prefix sub s ||
  match s with
  | String _ r => contains sub r
  | EmptyString => false
  end.

(** [s.lower()], on the ASCII letters. *)
Definition lower_char (c : ascii) : ascii :=
  let n := N_of_ascii c in
  if ((65 <=? n) && (n <=? 90))%N then ascii_of_N (n + 32) else c.

Fixpoint lower (s : string) : string :=
  match s with
  | String c r => String (lower_char c) (lower r)
  | EmptyString => EmptyString
  end.

Definition is_digit (c : ascii) : bool :=
  let n := N_of_ascii c in ((48 <=? n) && (n <=? 57))%N.

(** The ASCII characters [int()] strips around a literal. *)
Definition is_space (c : ascii) : bool :=
  let n := N_of_ascii c in
  (((9 <=? n) && (n <=? 13)) || ((28 <=? n) && (n <=? 32)))%N.

(** Decimal digits, single underscores allowed between two digits. *)
Fixpoint digits (s : string) (acc : Z) (after_digit : bool) : option Z :=
  match s with
  | EmptyString => if after_digit then Some acc else None
  | String c r =>
      if is_digit c then digits r (10 * acc + Z.of_N (N_of_ascii c - 48)) true
      else if Ascii.eqb c "_" then (if after_digit then digits r acc false else None)
      else None
  end.

(** [int(s)]: [None] stands for the [ValueError] of a malformed literal. *)
Definition int (s : string) : option Z :=
  let t := rstrip_by is_space (lstrip_by is_space s) in
  match t with
  | String "-" r => Z.opp <$> digits r 0 false
  | String "+" r => digits r 0 false
  | _ => digits t 0 false
  end.

(** [str(n)] *)
Definition str (n : Z) : string := pretty n.

(** Iterating over a text file: the successive lines, terminators kept. *)
Fixpoint file_lines (s : string) : list string :=
  match s with
  | EmptyString => []
  | String c r =>
      if Ascii.eqb c nl then String c EmptyString :: file_lines r
      else match file_lines r with
           | l :: ls => String c l :: ls
           | [] => [String c EmptyString]
           end
  end.

End Py.

(** ** Exceptions and the state-and-exception monad *)

Inductive exn : Type :=
| ValueError (msg : string)
| IndexError (msg : string)
| KeyError (msg : string)
| OSError (msg : string)
| CalledProcessError (cmd : list string)
| RecursionError.

Inductive result (A : Type) : Type :=
| Ok (a : A)
| Raise (e : exn).
Arguments Ok {A} a.
Arguments Raise {A} e.

Definition M (S A : Type) : Type := S -> result A * S.

Definition ret {S A} (a : A) : M S A := fun s => (Ok a, s).
Definition raise {S A} (e : exn) : M S A := fun s => (Raise e, s).
Definition bind {S A B} (m : M S A) (k : A -> M S B) : M S B :=
  fun s => match m s with
           | (Ok a, s') => k a s'
           | (Raise e, s') => (Raise e, s')
           end.
Definition lift {S A} (r : result A) : M S A := fun s => (r, s).

Notation "'call' x <- m ; k" := (bind m (fun x => k))
  (at level 10, x name, m at level 100, k at level 200).
Notation "'exec' m ; k" := (bind m (fun _ => k))
  (at level 10, m at level 100, k at level 200).

(** [for x in l: body(x)] *)
Fixpoint for_each {S A} (body : A -> M S unit) (l : list A) : M S unit :=
  match l with
  | [] => ret tt
  | x :: l' => exec body x ; for_each body l'
  end.

(** A loop that carries the loop-local variables [v] from one pass to the
    next. *)
Fixpoint for_fold {S A V} (body : V -> A -> M S V) (v : V) (l : list A) : M S V :=
  match l with
  | [] => ret v
  | x :: l' => call v' <- body v x ; for_fold body v' l'
  end.

(** [[f(x) for x in l]], stopping at the first exception. *)
Fixpoint map_result {A B} (f : A -> result B) (l : list A) : result (list B) :=
  match l with
  | [] => Ok []
  | x :: l' =>
      match f x with
      | Raise e => Raise e
      | Ok y => match map_result f l' with
                | Raise e => Raise e
                | Ok ys => Ok (y :: ys)
                end
      end
  end.

(** [l[i]] *)
Definition getitem (l : list string) (i : nat) : result string :=
  match l !! i with
  | Some x => Ok x
  | None => Raise (IndexError "list index out of range")
  end.

(** [int(s)] *)
Definition to_int (s : string) : result Z :=
  match Py.int s with
  | Some n => Ok n
  | None => Raise (ValueError ("invalid literal for int() with base 10: " +:+ s))
  end.

(** ** The strand collapser [_merge_cg_strand] *)

(** The two loop-local variables of the collapser. *)
Record merge_vars : Type := MergeVars {
  prev_line : option (list string);
  cur_chrom : option string
}.

(** [out_allc.write(s)]: the state of the collapser loop is the list of the
    strings written so far to [out_allc]. *)
Definition out_write (s : string) : M (list string) unit :=
  fun out => (Ok tt, out ++ [s]).

Definition line_text (fields : list string) : string :=
  Py.join (String Py.tab "") fields +:+ String Py.nl "".

(** One pass of the [for line in allc] loop of [_merge_cg_strand]. *)
Definition merge_step (v : merge_vars) (line : string) : M (list string) merge_vars :=
  let cur_line := Py.split Py.tab (Py.strip (String Py.nl "") line) in
  call c0 <- lift (getitem cur_line 0) ;
  if negb (bool_decide (Some c0 = cur_chrom v)) then
    exec (match prev_line v with
          | Some p => out_write (line_text p)
          | None => ret tt
          end) ;
    ret (MergeVars (Some cur_line) (Some c0))
  else
    match prev_line v with
    | None => ret (MergeVars (Some cur_line) (cur_chrom v))
    | Some p =>
        call p1 <- lift (getitem p 1) ;
        call pos_prev <- lift (to_int p1) ;
        call c1 <- lift (getitem cur_line 1) ;
        call pos_cur <- lift (to_int c1) ;
        call adjacent <-
          (if (pos_prev + 1 =? pos_cur)%Z then
             call p2 <- lift (getitem p 2) ;
             call c2 <- lift (getitem cur_line 2) ;
             ret (negb (bool_decide (p2 = c2)))
           else ret false) ;
        if adjacent then
          call p4 <- lift (getitem p 4) ;
          call mc_prev <- lift (to_int p4) ;
          call c4 <- lift (getitem cur_line 4) ;
          call mc_cur <- lift (to_int c4) ;
          call p5 <- lift (getitem p 5) ;
          call cov_prev <- lift (to_int p5) ;
          call c5 <- lift (getitem cur_line 5) ;
          call cov_cur <- lift (to_int c5) ;
          let new_line :=
            take 4 p ++ [Py.str (mc_prev + mc_cur); Py.str (cov_prev + cov_cur); "1"] in
          exec out_write (line_text new_line) ;
          ret (MergeVars None (cur_chrom v))
        else
          exec out_write (line_text p) ;
          ret (MergeVars (Some cur_line) (cur_chrom v))
    end.

(** The whole loop, from [prev_line = None] and [cur_chrom = None]. *)
Definition merge_loop (lines : list string) : M (list string) merge_vars :=
  for_fold merge_step (MergeVars None None) lines.

(** [_merge_cg_strand(in_path, out_path)] on the file system. [open_allc]
    opens [in_path] for reading first, then creates [out_path]; what the loop
    wrote is in [out_path] when the [with] block is left, also when the loop
    raised. Nothing is written after the loop. At its only call site the two
    paths differ. *)
Definition _merge_cg_strand (in_path out_path : string)
  : M (gmap string string) unit :=
  fun fs =>
    match fs !! in_path with
    | None => (Raise (OSError in_path), fs)
    | Some text =>
        let '(r, written) := merge_loop (Py.file_lines text) [] in
        (match r with Ok _ => Ok tt | Raise e => Raise e end,
         <[out_path := String.concat "" written]> fs)
    end.

(** ** Parameter validation *)

Definition _check_strandness_parameter (strandness : string) : result string :=
  let strandness := Py.lower strandness in
  if bool_decide (strandness ∈ ["both"; "b"]) then Ok "Both"
  else if bool_decide (strandness ∈ ["merge"; "m"]) then Ok "MergeTmp"
  else if bool_decide (strandness ∈ ["split"; "s"]) then Ok "Split"
  else Raise (ValueError ("Unknown value for strandness: " +:+ strandness)).

(** keep allc format *)
Definition _extract_allc_format (allc_line_list : list string) : result string :=
  Ok (Py.join (String Py.tab "") allc_line_list).

Definition getitems (l : list string) (idx : list nat) : result (list string) :=
  map_result (getitem l) idx.

(** only chrom, pos, pos, mc, cov *)
Definition _extract_bed5_format (allc_line_list : list string) : result string :=
  match getitems allc_line_list [0; 1; 1; 4; 5] with
  | Raise e => Raise e
  | Ok l => Ok (Py.join (String Py.tab "") l +:+ String Py.nl "")
  end.

Definition _check_out_format_parameter (out_format : string)
  : result (string * (list string -> result string)) :=
  let out_format := Py.lower out_format in
  if bool_decide (out_format = "allc") then Ok ("allc.tsv.gz", _extract_allc_format)
  else if bool_decide (out_format = "bed5") then Ok ("bed5.bed.gz", _extract_bed5_format)
  else Raise (ValueError ("Unknown value for out_format: " +:+ out_format)).

(** ** Files, output handles and the routing table *)

(** An output handle: the path it was opened on and how many times [close]
    was called on it. A handle is named by its position in [handle_collect]. *)
Record handle : Type := Handle {
  h_path : string;
  h_closes : nat
}.

(** Keys of [context_handle]: a context, or a (context, strand) pair. *)
Inductive key : Type :=
| KContext (mc_pattern : string)
| KContextStrand (mc_pattern strand : string).

#[global] Instance key_eq_dec : EqDecision key.
Proof. solve_decision. Defined.

#[global] Instance key_countable : Countable key.
Proof.
  refine (inj_countable'
            (fun k => match k with
                      | KContext c => inl c
                      | KContextStrand c s => inr (c, s)
                      end)
            (fun x => match x with
                      | inl c => KContext c
                      | inr (c, s) => KContextStrand c s
                      end) _).
  intros []; reflexivity.
Defined.

(** The state one run of [extract_allc] works on: the files, the handles it
    has opened (in the order of [handle_collect]) and the [defaultdict]
    [context_handle]. *)
Record state : Type := State {
  fs : gmap string string;
  handle_collect : list handle;
  context_handle : gmap key (list nat)
}.

(** A process that has opened nothing yet. *)
Definition fresh (files : gmap string string) : state := State files [] ∅.

(** Run a computation on the files alone inside a run of [extract_allc]. *)
Definition lift_fs {A} (m : M (gmap string string) A) : M state A :=
  fun s => let '(r, files) := m (fs s) in
           (r, State files (handle_collect s) (context_handle s)).

(** Modelled from the spec: [open_allc] (module [._open], not among the
    sources) in write mode gives "an open, write-only sequential sink" on a
    path. [h = open_allc(file_path, 'w'); handle_collect.append(h)]: the file
    is created empty (or emptied) and the handle is the last of
    [handle_collect]. *)
Definition open_allc_w (file_path : string) : M state nat :=
  fun s => (Ok (length (handle_collect s)),
            State (<[file_path := ""]> (fs s))
                  (handle_collect s ++ [Handle file_path 0])
                  (context_handle s)).

(** [h.write(text)]: appends to the file of the handle; a closed handle
    refuses. *)
Definition handle_write (h : nat) (text : string) : M state unit :=
  fun s =>
    match handle_collect s !! h with
    | None => (Raise (ValueError "no such handle"), s)
    | Some hd =>
        match h_closes hd with
        | O => (Ok tt,
                State (<[h_path hd := default "" (fs s !! h_path hd) +:+ text]> (fs s))
                      (handle_collect s) (context_handle s))
        | S _ => (Raise (ValueError "I/O operation on closed file"), s)
        end
    end.

(** [h.close()] *)
Definition handle_close (h : nat) : M state unit :=
  fun s => (Ok tt,
            State (fs s)
                  (alter (fun hd => Handle (h_path hd) (S (h_closes hd))) h
                         (handle_collect s))
                  (context_handle s)).

(** [for handle in handle_collect: handle.close()] *)
Definition close_handles : M state unit :=
  fun s => for_each handle_close (seq 0 (length (handle_collect s))) s.

(** [context_handle[k]]: a [defaultdict(list)] creates the entry on a miss
    and never raises [KeyError]. *)
Definition context_handle_get (k : key) : M state (list nat) :=
  fun s =>
    match context_handle s !! k with
    | Some hs => (Ok hs, s)
    | None => (Ok [], State (fs s) (handle_collect s) (<[k := []]> (context_handle s)))
    end.

(** [context_handle[k].append(h)] *)
Definition context_handle_append (k : key) (h : nat) : M state unit :=
  call hs <- context_handle_get k;
  fun s => (Ok tt, State (fs s) (handle_collect s) (<[k := hs ++ [h]]> (context_handle s))).

(** [try: body except KeyError: continue] *)
Definition except_KeyError {S} (body : M S unit) : M S unit :=
  fun s => match body s with
           | (Raise (KeyError _), s') => (Ok tt, s')
           | other => other
           end.

(** [run(['rm', '-f', path])] *)
Definition rm_f (path : string) : M (gmap string string) unit :=
  fun files => (Ok tt, delete path files).

(** [run(['mv', src, dst], check=True)] *)
Definition mv (src dst : string) : M (gmap string string) unit :=
  fun files =>
    match files !! src with
    | None => (Raise (CalledProcessError ["mv"; src; dst]), files)
    | Some text => (Ok tt, <[dst := text]> (delete src files))
    end.

(** ** The collaborators outside this module *)

(** What [tabix_allc] is called with: a path, or (in the orchestrator) a list. *)
Inductive pyarg : Type :=
| PStr (s : string)
| PList (l : list string).

(** The functions [_extract_allc.py] imports from [._open] and [.utilities],
    and the iteration order of a Python [set]. Their code is not part of this
    module; the extractor is modelled for any behaviour of them.
    - [parse_chrom_size files path]: the chromosome table, in file order;
    - [parse_mc_pattern pattern]: the set of contexts a pattern stands for;
    - [genome_region_chunks files chrom_size_path bin_length]: the regions
      (with [combine_small=True]);
    - [open_allc_region files path region]: the lines [open_allc(path,
      region=region)] yields for a region;
    - [tabix_allc arg]: the indexing command;
    - [set_iter X]: the elements of the set [X] in the order Python iterates
      over it. *)
Class Collaborators : Type := {
  parse_chrom_size : gmap string string -> string -> result (list (string * Z));
  parse_mc_pattern : string -> result (gset string);
  genome_region_chunks : gmap string string -> option string -> Z -> result (list string);
  open_allc_region : gmap string string -> string -> string -> result (list string);
  tabix_allc : pyarg -> M (gmap string string) unit;
  set_iter : gset string -> list string;
  set_iter_perm : forall X, set_iter X ≡ₚ elements X
}.

(** ** The extractor [extract_allc] *)

(** The arguments of [extract_allc], in the order of its signature.
    [mc_contexts] is a [str] or a [list]; [chrom_size_path] and [region] may
    be [None]. *)
Record args : Type := Args {
  allc_path : string;
  output_prefix : string;
  mc_contexts : string + list string;
  chrom_size_path : option string;
  strandness : string;
  output_format : string;
  region : option string;
  cov_cutoff : Z;
  tabix : bool;
  cpu : Z
}.

Definition path_of (output_prefix mc_context label out_suffix : string) : string :=
  output_prefix +:+ "." +:+ mc_context +:+ "-" +:+ label +:+ "." +:+ out_suffix.

(** Stable insertion sort, ascending for [le]. *)
Fixpoint insert_sorted {A} (le : A -> A -> bool) (x : A) (l : list A) : list A :=
  match l with
  | [] => [x]
  | y :: l' => if le x y then x :: l else y :: insert_sorted le x l'
  end.

Definition sort_by {A} (le : A -> A -> bool) (l : list A) : list A :=
  foldr (insert_sorted le) [] l.

Definition to_ints (l : list string) : result (list Z) := map_result to_int l.

(** [_merge_gz_files(file_list, output_path)] *)
Definition _merge_gz_files (file_list : list string) (output_path : string)
  : M (gmap string string) string :=
  exec (fun files => (Ok tt, <[output_path := ""]> files));
  exec for_each (fun file_path =>
         call text <- (fun files =>
                         match files !! file_path with
                         | Some t => (Ok t, files)
                         | None => (Raise (OSError file_path), files)
                         end);
         exec (fun files =>
                 (Ok tt, <[output_path := default "" (files !! output_path) +:+ text]> files));
         rm_f file_path) file_list;
  ret output_path.

(** A task handed to a [ProcessPoolExecutor] whose future is never looked
    at: its effect on the files stays, its exception is lost. *)
Definition submit_forget {A} (task : M (gmap string string) A) : M (gmap string string) unit :=
  fun files => let '(_, files') := task files in (Ok tt, files').

(** One row of [total_output_df]: [path], [chunk_id], [full_suffix]. *)
Definition chunk_record (output_prefix path : string) : string * string * string :=
  match Py.split "." (Py.strip "." (Py.lstrip output_prefix path)) with
  | chunk_id :: full_suffix => (path, chunk_id, Py.join "." full_suffix)
  | [] => (path, "", "")
  end.

(** The keyword arguments of the [extract_allc] task submitted for the chunk
    [job = (chunk_id, region)]. *)
Definition chunk_task (allc_path output_prefix : string) (mc_contexts : list string)
    (strandness output_format : string) (chrom_size_path : option string)
    (cov_cutoff : Z) (job : nat * string) : args :=
  Args allc_path
       (output_prefix +:+ "." +:+ Py.str (Z.of_nat (fst job)) +:+ ".")
       (inr mc_contexts) chrom_size_path strandness output_format
       (Some (snd job)) cov_cutoff false 1%Z.

Section Extractor.
Context `{Collaborators}.

(** Modelled from the spec: [open_allc] in read mode "yields successive text
    records". [open_allc(allc_path, region=region)]: with no region, the lines
    of the file; with one, what the region reader yields. *)
Definition open_allc_r (path : string) (region : option string) : M state (list string) :=
  fun s =>
    match region with
    | None =>
        match fs s !! path with
        | Some text => (Ok (Py.file_lines text), s)
        | None => (Raise (OSError path), s)
        end
    | Some r => (open_allc_region (fs s) path r, s)
    end.

(** The body of [for mc_context in mc_contexts] that opens the handles;
    returns what it appends to [output_path_collect]. *)
Definition open_context (output_prefix strandness out_suffix mc_context : string)
  : M state (list string) :=
  call parsed_context_set <- lift (parse_mc_pattern mc_context);
  if bool_decide (strandness = "Split") then
    let file_path_w := path_of output_prefix mc_context "Watson" out_suffix in
    call w_handle <- open_allc_w file_path_w;
    let file_path_c := path_of output_prefix mc_context "Crick" out_suffix in
    call c_handle <- open_allc_w file_path_c;
    exec for_each (fun mc_pattern =>
           exec context_handle_append (KContextStrand mc_pattern "+") w_handle;
           context_handle_append (KContextStrand mc_pattern "-") c_handle)
         (set_iter parsed_context_set);
    ret [file_path_w; file_path_c]
  else
    let file_path := path_of output_prefix mc_context strandness out_suffix in
    let collected :=
      if bool_decide (strandness = "MergeTmp")
      then path_of output_prefix mc_context "Merge" out_suffix
      else file_path in
    call _handle <- open_allc_w file_path;
    exec for_each (fun mc_pattern => context_handle_append (KContext mc_pattern) _handle)
         (set_iter parsed_context_set);
    ret [collected].

(** The handle-opening loop; returns [output_path_collect]. *)
Definition open_contexts (output_prefix strandness out_suffix : string)
    (mc_contexts : list string) : M state (list string) :=
  for_fold (fun output_path_collect mc_context =>
              call paths <- open_context output_prefix strandness out_suffix mc_context;
              ret (output_path_collect ++ paths))
           [] mc_contexts.

(** One pass of [for line in allc]: coverage filter, routing key, writes. *)
Definition route_line (split_mode : bool) (line_func : list string -> result string)
    (cov_cutoff : Z) (line : string) : M state unit :=
  let cur_line := Py.split Py.tab line in
  call c5 <- lift (getitem cur_line 5);
  call cov <- lift (to_int c5);
  if (cov >? cov_cutoff)%Z then ret tt
  else
    except_KeyError
      (call k <- (if split_mode then
                    call c3 <- lift (getitem cur_line 3);
                    call c2 <- lift (getitem cur_line 2);
                    ret (KContextStrand c3 c2)
                  else
                    call c3 <- lift (getitem cur_line 3);
                    ret (KContext c3));
       call hs <- context_handle_get k;
       for_each (fun h => call text <- lift (line_func cur_line); handle_write h text) hs).

(** The record scan. *)
Definition scan (split_mode : bool) (line_func : list string -> result string)
    (cov_cutoff : Z) (lines : list string) : M state unit :=
  for_each (route_line split_mode line_func cov_cutoff) lines.

Definition tabix_if (tabix : bool) (path : string) : M state unit :=
  if tabix then lift_fs (tabix_allc (PStr path)) else ret tt.

(** The body of the closing [for mc_context in mc_contexts] loop. *)
Definition post_process (output_prefix strandness out_suffix : string) (tabix : bool)
    (mc_context : string) : M state unit :=
  if bool_decide (strandness = "Split") then
    exec tabix_if tabix (path_of output_prefix mc_context "Watson" out_suffix);
    tabix_if tabix (path_of output_prefix mc_context "Crick" out_suffix)
  else if bool_decide (strandness = "MergeTmp") then
    let in_path := path_of output_prefix mc_context strandness out_suffix in
    call out_path <-
      (if Py.contains "CG" mc_context && Py.contains "allc" out_suffix then
         let out_path := path_of output_prefix mc_context "Merge" out_suffix in
         exec lift_fs (_merge_cg_strand in_path out_path);
         exec lift_fs (rm_f in_path);
         ret out_path
       else
         let out_path := path_of output_prefix mc_context "Both" out_suffix in
         exec lift_fs (mv in_path out_path);
         ret out_path);
    tabix_if tabix out_path
  else
    tabix_if tabix (path_of output_prefix mc_context strandness out_suffix).

(** The type of [_extract_allc_parallel]: [allc_path], [output_prefix],
    [mc_contexts], [strandness], [output_format], [chrom_size_path],
    [cov_cutoff], [cpu], [chunk_size], [tabix]. *)
Definition orchestrator : Type :=
  string -> string -> list string -> string -> string -> option string ->
  Z -> Z -> Z -> bool -> M (gmap string string) (list string).

(** "determine region": with no region given, a chromosome table makes the
    region the list of its chromosomes. *)
Definition determine_region (a : args) : M state (option string) :=
  match region a with
  | None =>
      match chrom_size_path a with
      | Some p =>
          call chrom_dict <- (fun s => (parse_chrom_size (fs s) p, s));
          ret (Some (Py.join " " (map fst chrom_dict)))
      | None => ret None
      end
  | Some r => ret (Some r)
  end.

(** [mc_contexts = list(set(mc_contexts))], after the split of a [str]. *)
Definition requested_contexts (a : args) : list string :=
  set_iter (list_to_set (match mc_contexts a with
                         | inl s => Py.split " " s
                         | inr l => l
                         end)).

(** The single-pass part of [extract_allc], from "split file first" on:
    scan, close the handles, post-process every context. *)
Definition single_pass (allc_path : string) (region : option string)
    (output_prefix strandness out_suffix : string)
    (line_func : list string -> result string) (cov_cutoff : Z) (tabix : bool)
    (mc_contexts output_path_collect : list string) : M state (list string) :=
  call lines <- open_allc_r allc_path region;
  exec scan (bool_decide (strandness = "Split")) line_func cov_cutoff lines;
  exec close_handles;
  exec for_each (post_process output_prefix strandness out_suffix tabix) mc_contexts;
  ret output_path_collect.

Definition parallel_chunk_size : Z := 100000000%Z.

(** [extract_allc], with the function it calls on the parallel branch left
    open. *)
Definition extract_allc_body (parallel : orchestrator) (a : args) : M state (list string) :=
  call region <- determine_region a;
  let output_prefix := Py.rstrip "." (output_prefix a) in
  let mc_contexts := requested_contexts a in
  call strandness <- lift (_check_strandness_parameter (strandness a));
  call fmt <- lift (_check_out_format_parameter (output_format a));
  let out_suffix := fst fmt in
  let line_func := snd fmt in
  call output_path_collect <- open_contexts output_prefix strandness out_suffix mc_contexts;
  if (cpu a >? 1)%Z && bool_decide (region = None) then
    lift_fs (parallel (allc_path a) output_prefix mc_contexts strandness (output_format a)
                      (chrom_size_path a) (cov_cutoff a) (cpu a) parallel_chunk_size (tabix a))
  else
    single_pass (allc_path a) region output_prefix strandness out_suffix line_func
                (cov_cutoff a) (tabix a) mc_contexts output_path_collect.

(** ** The parallel orchestrator [_extract_allc_parallel] *)

Section Orchestrator.
Variable extract_allc_rec : args -> M state (list string).

(** [executor.submit(extract_allc, ...)]: the task runs in a process of its
    own, with its own handles; what it does to the files stays, and its
    result or exception is kept in the future. The tasks are taken in the
    order they are submitted. *)
Definition submit_extract (a : args) : M (gmap string string) (result (list string)) :=
  fun files => let '(r, s') := extract_allc_rec a (fresh files) in (Ok r, fs s').

Definition _extract_allc_parallel : orchestrator :=
  fun allc_path output_prefix mc_contexts strandness output_format chrom_size_path
      cov_cutoff cpu chunk_size tabix =>
  let output_prefix := Py.rstrip "." output_prefix in
  call regions <-
    (fun files => (genome_region_chunks files chrom_size_path chunk_size, files));
  call future_dict <-
    for_fold (fun futures job =>
                call future <-
                  submit_extract
                    (chunk_task allc_path output_prefix mc_contexts strandness
                                output_format chrom_size_path cov_cutoff job);
                ret (futures ++ [future]))
             [] (imap pair regions);
  (* [future.result()] re-raises the exception of a failed task *)
  call output_records <-
    for_fold (fun output_records future =>
                call output_path_list <- lift future;
                ret (output_records ++ output_path_list))
             [] future_dict;
  let records := map (chunk_record output_prefix) output_records in
  (* [groupby('full_suffix')] yields the groups by ascending key *)
  let suffixes := sort_by String.leb (remove_dups (map snd records)) in
  call collected <-
    for_fold (fun acc suffix =>
                let sub_df := filter (fun r => snd r = suffix) records in
                call ids <- lift (to_ints (map (fun r => snd (fst r)) sub_df));
                let ordered_file_list :=
                  map snd (sort_by (fun x y => (fst x <=? fst y)%Z)
                                   (zip ids (map (fun r => fst (fst r)) sub_df))) in
                let real_file_path := output_prefix +:+ "." +:+ suffix in
                exec submit_forget (_merge_gz_files ordered_file_list real_file_path);
                ret (fst acc ++ [real_file_path],
                     if tabix && Py.contains "allc" suffix then S (snd acc) else snd acc))
             ([], O) suffixes;
  let real_out_paths := fst collected in
  (* every entry of [need_tabix] is the list [real_out_paths] itself *)
  exec (if tabix then
          for_each (fun _ => submit_forget (tabix_allc (PList real_out_paths)))
                   (replicate (snd collected) tt)
        else ret tt);
  ret real_out_paths.

End Orchestrator.

(** [extract_allc] as a task of the orchestrator: it is called with a region,
    so its parallel branch is never taken (see [extract_allc_region]). *)
Definition extract_allc_task : args -> M state (list string) :=
  extract_allc_body (fun _ _ _ _ _ _ _ _ _ _ => raise RecursionError).

Definition extract_allc : args -> M state (list string) :=
  extract_allc_body (_extract_allc_parallel extract_allc_task).

End Extractor.

(** ** Sample collaborators, to run the extractor on concrete files *)

Module Sample.

(** Modelled from the spec: the chromosome-size table parser, "chromosome
    name to length, order-preserving", on a table with one [name<TAB>length]
    line per chromosome. *)
Definition parse_chrom_size (files : gmap string string) (path : string)
  : result (list (string * Z)) :=
  match files !! path with
  | None => Raise (OSError path)
  | Some text =>
      map_result (fun line =>
                    let fields := Py.split Py.tab line in
                    match getitem fields 0, getitem fields 1 with
                    | Ok name, Ok len =>
                        match to_int len with
                        | Ok n => Ok (name, n)
                        | Raise e => Raise e
                        end
                    | Raise e, _ => Raise e
                    | _, Raise e => Raise e
                    end)
                 (Py.file_lines text)
  end.

Definition iupac (base : ascii) : option string :=
  if Ascii.eqb base "A" then Some "A"
  else if Ascii.eqb base "C" then Some "C"
  else if Ascii.eqb base "G" then Some "G"
  else if Ascii.eqb base "T" then Some "T"
  else if Ascii.eqb base "H" then Some "ATC"
  else if Ascii.eqb base "N" then Some "ATCGN"
  else None.

Fixpoint expand (pattern : string) : result (list string) :=
  match pattern with
  | EmptyString => Ok [EmptyString]
  | String base rest =>
      match iupac base, expand rest with
      | Some bases, Ok tails =>
          Ok (flat_map (fun b => map (String b) tails) (list_ascii_of_string bases))
      | None, _ => Raise (KeyError (String base ""))
      | _, Raise e => Raise e
      end
  end.

(** Modelled from the spec: the pattern expansion, "a pure function mapping a
    context token such as CHN to the set of concrete sequence contexts it
    matches". Every base of the pattern stands for a set of bases; the pattern
    stands for their product. *)
Definition parse_mc_pattern (pattern : string) : result (gset string) :=
  match expand pattern with
  | Ok l => Ok (list_to_set l)
  | Raise e => Raise e
  end.

(** Modelled from the spec: a partition of the genome "via chromosome-size
    metadata", here one chunk per chromosome of the table; without a table
    there is nothing to partition. *)
Definition table_chunks (files : gmap string string) (chrom_size_path : option string)
    (bin_length : Z) : result (list string) :=
  match chrom_size_path with
  | None => Raise (OSError "None")
  | Some p =>
      match parse_chrom_size files p with
      | Ok table => Ok (map fst table)
      | Raise e => Raise e
      end
  end.

(** Modelled from the spec: the "region-bounded compressed-record reader". A
    region is a list of chromosome names separated by spaces (a [:start-end]
    after a name is ignored): the lines of each named chromosome, in the
    order of the names. *)
Definition open_allc_region (files : gmap string string) (path region : string)
  : result (list string) :=
  match files !! path with
  | None => Raise (OSError path)
  | Some text =>
      Ok (flat_map
            (fun token =>
               filter (fun line =>
                         hd_error (Py.split Py.tab line) = hd_error (Py.split ":" token))
                      (Py.file_lines text))
            (Py.split " " region))
  end.

(** Modelled from the spec: the indexing command, "a black-box command taking
    a completed sorted file path". Writes [path.tbi] next to an existing
    file. *)
Definition tabix_allc (arg : pyarg) : M (gmap string string) unit :=
  fun files =>
    match arg with
    | PStr path =>
        match files !! path with
        | Some _ => (Ok tt, <[path +:+ ".tbi" := "index"]> files)
        | None => (Raise (CalledProcessError ["tabix"; path]), files)
        end
    | PList l => (Raise (CalledProcessError ("tabix" :: l)), files)
    end.

Definition with_chunks
    (chunks : gmap string string -> option string -> Z -> result (list string))
  : Collaborators :=
  Build_Collaborators parse_chrom_size parse_mc_pattern chunks open_allc_region
    tabix_allc elements (fun X => Permutation_refl (elements X)).

(** The sample collaborators; [fixed] has a chunker that needs no table. *)
Definition table : Collaborators := with_chunks table_chunks.
Definition fixed (regions : list string) : Collaborators :=
  with_chunks (fun _ _ _ => Ok regions).

Definition TAB : string := String Py.tab "".
Definition NL : string := String Py.nl "".

(** [allc_line chrom pos strand context mc cov flag] *)
Definition allc_line (chrom pos strand context mc cov flag : string) : string :=
  Py.join TAB [chrom; pos; strand; context; mc; cov; flag] +:+ NL.

End Sample.

(** ** Notions used in the statements *)


(** The routing key of a record: (context, strand) in split mode, the
    context otherwise. *)
Definition routing_key (split_mode : bool) (cur_line : list string) : option key :=
  if split_mode
  then c3 ← cur_line !! 3; c2 ← cur_line !! 2; Some (KContextStrand c3 c2)
  else KContext <$> cur_line !! 3.


(** The paths the handle-opening loop opens, in order. *)
Definition handle_paths (output_prefix strandness out_suffix : string)
    (mc_contexts : list string) : list string :=
  flat_map (fun mc_context =>
              if bool_decide (strandness = "Split")
              then [path_of output_prefix mc_context "Watson" out_suffix;
                    path_of output_prefix mc_context "Crick" out_suffix]
              else [path_of output_prefix mc_context strandness out_suffix])
           mc_contexts.

(** [extract_allc] reaches its parallel branch: more than one cpu, no region
    given and no chromosome table to derive one from. *)
Definition parallel_branch (a : args) : bool :=
  (cpu a >? 1)%Z && bool_decide (region a = None) && bool_decide (chrom_size_path a = None).

(** [close] called once more on a handle. *)
Definition closed_again (hd : handle) : handle := Handle (h_path hd) (S (h_closes hd)).

(** A handle just opened on [path]. *)
Definition opened (path : string) : handle := Handle path 0.

(** [m] opens and closes no handle. *)
Definition keeps_handles {A} (m : M state A) : Prop :=
  forall s r s', m s = (r, s') -> handle_collect s' = handle_collect s.

(** [m] raises nothing and touches only the routing table. *)
Definition quiet {A} (m : M state A) : Prop :=
  forall s, exists a s',
    m s = (Ok a, s') /\ fs s' = fs s /\ handle_collect s' = handle_collect s.

(** What the strandness validator raises on the normalized token of merge
    mode. *)
Definition mergetmp_error : exn := ValueError "Unknown value for strandness: mergetmp".


(** ** Concrete files and calls *)

Module Run.
Import Sample.

Definition rec1 : string := allc_line "chr1" "3" "+" "CGA" "2" "5" "1".
Definition rec2 : string := allc_line "chr1" "4" "-" "CGT" "1" "4" "1".
Definition rec3 : string := allc_line "chr1" "9" "+" "CAT" "0" "100" "1".
Definition rec4 : string := allc_line "chr2" "5" "+" "CGG" "1" "1" "1".

Definition files : gmap string string :=
  {[ "in.allc" := rec1 +:+ rec2 +:+ rec3 +:+ rec4;
     "sizes" := "chr1" +:+ TAB +:+ "100" +:+ NL +:+ "chr2" +:+ TAB +:+ "50" +:+ NL ]}.

(** [extract_allc('in.allc', 'out', mc_contexts, chrom_size_path, strandness,
    'allc', None, 9999, False, cpu)] *)
Definition call_with (mc_contexts : string) (chrom_size_path : option string)
    (strandness : string) (cpu : Z) : args :=
  Args "in.allc" "out" (inl mc_contexts) chrom_size_path strandness "allc" None 9999 false cpu.


End Run.

(** ** Reference notions for the further properties *)

(** Appending [text] to the file at [path], created when it is missing. *)
Definition append_at (path text : string) (files : gmap string string)
  : gmap string string :=
  <[path := default "" (files !! path) +:+ text]> files.



(** No file is removed or shortened: every file of [files] is in [files']
    with its old text as a prefix. *)
Definition grows (files files' : gmap string string) : Prop :=
  forall p t, files !! p = Some t -> exists u, files' !! p = Some (t +:+ u).

(** [m] only appends to files. *)
Definition only_appends {A} (m : M state A) : Prop :=
  forall s r s', m s = (r, s') -> grows (fs s) (fs s').










(** The paths the handle-opening loop collects in [output_path_collect]: the
    paths it opens, except in merge mode, where it collects the name the file
    is to have after the collapse. *)
Definition returned_paths (output_prefix strandness out_suffix : string)
    (mc_contexts : list string) : list string :=
  flat_map (fun mc_context =>
              if bool_decide (strandness = "Split")
              then [path_of output_prefix mc_context "Watson" out_suffix;
                    path_of output_prefix mc_context "Crick" out_suffix]
              else [if bool_decide (strandness = "MergeTmp")
                    then path_of output_prefix mc_context "Merge" out_suffix
                    else path_of output_prefix mc_context strandness out_suffix])
           mc_contexts.

(** Every character of [s] satisfies [p]. *)
Fixpoint all_chars (p : ascii -> bool) (s : string) : bool :=
  match s with
  | EmptyString => true
  | String c r => p c && all_chars p r
  end.

Definition is_dot (c : ascii) : bool := Ascii.eqb c ".".

(** In split mode, the handle [h] listed under the key [k] suits the strand of
    the key: it is the open Watson handle of a requested context for the
    strand [+], the open Crick handle for the strand [-]. *)
Definition strand_entry (output_prefix out_suffix : string) (mc_contexts : list string)
    (hc : list handle) (k : key) (h : nat) : Prop :=
  exists mc_pattern mc_context,
    mc_context ∈ mc_contexts
    /\ ((k = KContextStrand mc_pattern "+"
         /\ hc !! h = Some (opened (path_of output_prefix mc_context "Watson" out_suffix)))
        \/ (k = KContextStrand mc_pattern "-"
            /\ hc !! h = Some (opened (path_of output_prefix mc_context "Crick" out_suffix)))).

(** Every entry of the routing table suits its strand. *)
Definition strand_table (output_prefix out_suffix : string) (mc_contexts : list string)
    (s : state) : Prop :=
  forall k hs h,
    context_handle s !! k = Some hs -> h ∈ hs ->
    strand_entry output_prefix out_suffix mc_contexts (handle_collect s) k h.



(** The same call with another [cpu]. *)
Definition with_cpu (a : args) (n : Z) : args :=
  Args (allc_path a) (output_prefix a) (mc_contexts a) (chrom_size_path a)
       (strandness a) (output_format a) (region a) (cov_cutoff a) (tabix a) n.

(** * Properties *)

(** ** The Python layer on examples *)

Example split_tab : Py.split Py.tab ("a" +:+ String Py.tab "b") = ["a"; "b"].
Proof. reflexivity. Qed.

Example int_strips_newline : Py.int ("5" +:+ String Py.nl "") = Some 5%Z.
Proof. reflexivity. Qed.

Example int_rejects_letters : Py.int "5x" = None.
Proof. reflexivity. Qed.

Example lstrip_takes_a_set : Py.lstrip "out.0" "out.0.0.CG" = "CG".
Proof. reflexivity. Qed.

Example lower_MergeTmp : Py.lower "MergeTmp" = "mergetmp".
Proof. reflexivity. Qed.

(** ** Loops *)



(** ** The strand collapser *)






(** A file with a single record comes out empty. *)
Example single_record_is_lost :
  snd (_merge_cg_strand "in" "out" {[ "in" := Run.rec1 ]}) !! "out" = Some "".
Proof. reflexivity. Qed.

(** C2, as the code has it. On the records [chr1 3 + CGA 2 5 1] and
    [chr1 4 - CGT 1 4 1] the collapser writes exactly one record,
    [chr1 3 + CGA 3 9 1]: the first four fields of the pending record
    (chromosome, position, strand and context), the two sums 3 and 9, and the
    flag 1; nothing stays pending. *)
Theorem collapser_merges_adjacent_pair :
  let files : gmap string string := {[ "in" := Run.rec1 +:+ Run.rec2 ]} in
  merge_loop [Run.rec1; Run.rec2] []
  = (Ok (MergeVars None (Some "chr1")),
     [Sample.allc_line "chr1" "3" "+" "CGA" "3" "9" "1"])
  /\ _merge_cg_strand "in" "out" files
     = (Ok tt, <["out" := Sample.allc_line "chr1" "3" "+" "CGA" "3" "9" "1"]> files).
Proof. split; reflexivity. Qed.

(** C2, as stated: the file the collapser writes is not the six-field record
    [chr1 3 CG 3 9 1]. *)
Lemma collapser_output_is_not_six_fields :
  snd (_merge_cg_strand "in" "out" {[ "in" := Run.rec1 +:+ Run.rec2 ]}) !! "out"
  <> Some (Py.join Sample.TAB ["chr1"; "3"; "CG"; "3"; "9"; "1"] +:+ Sample.NL).
Proof. vm_compute. discriminate. Qed.

(** ** The context router *)

Section Router.
Context `{Collaborators}.









End Router.



(** ** Output handles *)

Lemma keeps_handles_ret {A} (a : A) : keeps_handles (ret a).
Proof. intros s r s' [= <- <-]. reflexivity. Qed.

Lemma keeps_handles_lift {A} (r : result A) : keeps_handles (lift r).
Proof. intros s r' s' [= <- <-]. reflexivity. Qed.

Lemma keeps_handles_bind {A B} (m : M state A) (k : A -> M state B) :
  keeps_handles m -> (forall a, keeps_handles (k a)) -> keeps_handles (bind m k).
Proof.
  intros Hm Hk s r s' Hrun. unfold bind in Hrun.
  destruct (m s) as [[a|e] s1] eqn:Hms.
  - rewrite (Hk a _ _ _ Hrun). eapply Hm, Hms.
  - injection Hrun as <- <-. eapply Hm, Hms.
Qed.

Lemma keeps_handles_for_each {A} (body : A -> M state unit) (l : list A) :
  (forall x, keeps_handles (body x)) -> keeps_handles (for_each body l).
Proof.
  intros Hbody. induction l as [|x l IH]; simpl.
  - apply keeps_handles_ret.
  - apply keeps_handles_bind; auto.
Qed.


Lemma keeps_handles_except_KeyError (body : M state unit) :
  keeps_handles body -> keeps_handles (except_KeyError body).
Proof.
  intros Hbody s r s' Hrun. unfold except_KeyError in Hrun.
  destruct (body s) as [[[]|e] s1] eqn:Hb.
  - injection Hrun as <- <-. eapply Hbody, Hb.
  - destruct e; injection Hrun as <- <-; eapply Hbody, Hb.
Qed.

Lemma keeps_handles_write (h : nat) (text : string) : keeps_handles (handle_write h text).
Proof.
  intros s r s' Hrun. unfold handle_write in Hrun.
  repeat case_match; by simplify_eq/=.
Qed.

Lemma keeps_handles_get (k : key) : keeps_handles (context_handle_get k).
Proof.
  intros s r s' Hrun. unfold context_handle_get in Hrun.
  case_match; by simplify_eq/=.
Qed.

Lemma quiet_bind {A B} (m : M state A) (k : A -> M state B) :
  quiet m -> (forall a, quiet (k a)) -> quiet (bind m k).
Proof.
  intros Hm Hk s. destruct (Hm s) as (a & s1 & Hms & Hfs1 & Hh1).
  destruct (Hk a s1) as (b & s2 & Hks & Hfs2 & Hh2).
  exists b, s2. unfold bind. rewrite Hms, Hks. repeat split; congruence.
Qed.

Lemma quiet_for_each {A} (body : A -> M state unit) (l : list A) :
  (forall x, quiet (body x)) -> quiet (for_each body l).
Proof.
  intros Hbody. induction l as [|x l IH]; simpl.
  - intros s. by exists tt, s.
  - apply quiet_bind; auto.
Qed.

Lemma quiet_append (k : key) (h : nat) : quiet (context_handle_append k h).
Proof.
  intros s. unfold context_handle_append, context_handle_get, bind.
  destruct (context_handle s !! k); eauto.
Qed.

Section Handles.
Context `{Collaborators}.

Lemma keeps_handles_route_line (split_mode : bool)
    (line_func : list string -> result string) (C : Z) (line : string) :
  keeps_handles (route_line split_mode line_func C line).
Proof.
  unfold route_line.
  apply keeps_handles_bind; [apply keeps_handles_lift|]. intros c5.
  apply keeps_handles_bind; [apply keeps_handles_lift|]. intros cov.
  destruct (cov >? C)%Z; [apply keeps_handles_ret|].
  apply keeps_handles_except_KeyError, keeps_handles_bind.
  - destruct split_mode;
      repeat (apply keeps_handles_bind; [apply keeps_handles_lift|]; intros ?);
      apply keeps_handles_ret.
  - intros k. apply keeps_handles_bind; [apply keeps_handles_get|]. intros hs.
    apply keeps_handles_for_each. intros h.
    apply keeps_handles_bind; [apply keeps_handles_lift|]. intros text.
    apply keeps_handles_write.
Qed.

Lemma keeps_handles_scan (split_mode : bool)
    (line_func : list string -> result string) (C : Z) (lines : list string) :
  keeps_handles (scan split_mode line_func C lines).
Proof. apply keeps_handles_for_each. intros line. apply keeps_handles_route_line. Qed.




Lemma for_each_handle_close (k i : nat) (s : state) :
  exists hc : list handle,
    for_each handle_close (seq i k) s = (Ok tt, State (fs s) hc (context_handle s))
    /\ forall j : nat,
         hc !! j = if bool_decide (i <= j < i + k)%nat
                   then closed_again <$> handle_collect s !! j
                   else handle_collect s !! j.
Proof.
  revert i s. induction k as [|k IH]; intros i s; simpl.
  - exists (handle_collect s). split; [by destruct s|].
    intros j. rewrite bool_decide_false by lia. reflexivity.
  - unfold bind, handle_close at 1.
    destruct (IH (S i) (State (fs s) (alter closed_again i (handle_collect s))
                              (context_handle s))) as (hc & Hrun & Hhc).
    simpl in Hrun, Hhc. exists hc. split; [exact Hrun|].
    intros j. rewrite Hhc.
    destruct (decide (j = i)) as [->|Hne].
    + rewrite bool_decide_false, bool_decide_true by lia.
      apply list_lookup_alter_eq.
    + rewrite list_lookup_alter_ne by done.
      repeat case_bool_decide; try reflexivity; lia.
Qed.

(** The closing loop calls [close] once on every handle of [handle_collect]
    and never raises. *)
Lemma close_handles_closes_each_once (s : state) :
  close_handles s
  = (Ok tt, State (fs s) (closed_again <$> handle_collect s) (context_handle s)).
Proof.
  unfold close_handles.
  destruct (for_each_handle_close (length (handle_collect s)) 0 s) as (hc & -> & Hhc).
  do 2 f_equal. apply list_eq. intros j. rewrite Hhc, list_lookup_fmap.
  case_bool_decide as Hj; [reflexivity|].
  rewrite lookup_ge_None_2 by (simpl in Hj; lia). reflexivity.
Qed.



Lemma determine_region_spec (a : args) (s s' : state) (reg : option string) :
  determine_region a s = (Ok reg, s') ->
  s' = s /\ (reg = None <-> region a = None /\ chrom_size_path a = None).
Proof.
  unfold determine_region, bind, ret. intros Hrun.
  destruct (region a) as [r|].
  - injection Hrun as <- <-. split; [done|]. split; [done | by intros []].
  - destruct (chrom_size_path a) as [p|].
    + destruct (parse_chrom_size (fs s) p); [|discriminate].
      injection Hrun as <- <-. split; [done|]. split; [done | by intros []].
    + injection Hrun as <- <-. done.
Qed.




(** Creating (or emptying) the files of a list of paths. *)
Lemma created_lookup (paths : list string) (p : string) (files : gmap string string) :
  p ∈ paths \/ files !! p = Some "" ->
  foldl (fun f path => <[path := ""]> f) files paths !! p = Some "".
Proof.
  revert files. induction paths as [|x xs IH]; intros files Hp; simpl.
  - destruct Hp as [Hp|Hp]; [by apply elem_of_nil in Hp | done].
  - apply IH. destruct (decide (x = p)) as [->|Hne].
    + right. apply lookup_insert_eq.
    + destruct Hp as [Hp|Hp].
      * left. apply elem_of_cons in Hp as [->|Hp]; done.
      * right. by rewrite lookup_insert_ne.
Qed.

(** When the pattern parses, the loop body opens the handles of the context
    and returns. *)
Lemma open_context_opens (output_prefix strandness out_suffix mc_context : string)
    (X : gset string) (s : state) :
  parse_mc_pattern mc_context = Ok X ->
  exists (out : list string) (s' : state),
    open_context output_prefix strandness out_suffix mc_context s = (Ok out, s')
    /\ handle_collect s'
       = handle_collect s
         ++ (opened <$> handle_paths output_prefix strandness out_suffix [mc_context])
    /\ fs s' = foldl (fun f path => <[path := ""]> f) (fs s)
                     (handle_paths output_prefix strandness out_suffix [mc_context]).
Proof.
  intros Hparse. unfold open_context, handle_paths, bind, lift. rewrite Hparse. simpl.
  case_bool_decide.
  - unfold open_allc_w. simpl.
    match goal with |- context [for_each ?body ?l ?s1] =>
      destruct (quiet_for_each body l) with (s := s1) as ([] & s2 & Hq & Hfs2 & Hh2)
    end.
    { intros x. apply quiet_bind; [apply quiet_append | intros _; apply quiet_append]. }
    rewrite Hq. unfold ret. do 2 eexists. split; [reflexivity|].
    rewrite Hh2, Hfs2. simpl. by rewrite <- app_assoc.
  - unfold open_allc_w. simpl.
    match goal with |- context [for_each ?body ?l ?s1] =>
      destruct (quiet_for_each body l) with (s := s1) as ([] & s2 & Hq & Hfs2 & Hh2)
    end.
    { intros x. apply quiet_append. }
    rewrite Hq. unfold ret. do 2 eexists. split; [reflexivity|].
    rewrite Hh2, Hfs2. done.
Qed.

Lemma handle_paths_cons (output_prefix strandness out_suffix c : string)
    (cs : list string) :
  handle_paths output_prefix strandness out_suffix (c :: cs)
  = handle_paths output_prefix strandness out_suffix [c]
    ++ handle_paths output_prefix strandness out_suffix cs.
Proof. unfold handle_paths. simpl. by rewrite app_nil_r. Qed.


(** On the parallel branch, [extract_allc] is the orchestrator run on the
    state the handle-opening loop leaves. *)
Lemma parallel_branch_run (a : args) (s s1 : state) (st : string)
    (fmt : string * (list string -> result string)) (out : list string) :
  parallel_branch a = true ->
  _check_strandness_parameter (strandness a) = Ok st ->
  _check_out_format_parameter (output_format a) = Ok fmt ->
  open_contexts (Py.rstrip "." (output_prefix a)) st (fst fmt) (requested_contexts a) s
  = (Ok out, s1) ->
  extract_allc a s
  = lift_fs (_extract_allc_parallel extract_allc_task (allc_path a)
               (Py.rstrip "." (output_prefix a)) (requested_contexts a) st
               (output_format a) (chrom_size_path a) (cov_cutoff a) (cpu a)
               parallel_chunk_size (tabix a)) s1.
Proof.
  intros Hbranch Hst Hfmt Hopen. unfold parallel_branch in Hbranch.
  apply andb_prop in Hbranch as [Hbranch Hchrom]. apply andb_prop in Hbranch as [Hcpu Hreg].
  apply bool_decide_eq_true in Hchrom, Hreg.
  unfold extract_allc, extract_allc_body, determine_region, bind, lift, ret.
  rewrite Hreg, Hchrom, Hst, Hfmt, Hopen, Hcpu. reflexivity.
Qed.

(** With a region, [extract_allc] never reaches its parallel branch: it is
    the task the orchestrator runs. *)
Lemma extract_allc_region (a : args) (s : state) :
  is_Some (region a) -> extract_allc a s = extract_allc_task a s.
Proof.
  intros [r Hr].
  unfold extract_allc, extract_allc_task, extract_allc_body, determine_region, bind, ret.
  rewrite Hr. repeat case_match; try reflexivity.
  rewrite bool_decide_false, andb_false_r in *; done.
Qed.


End Handles.

(** ** Parameter validation *)






Section Orchestration.
Context `{Collaborators}.


(** ** Merge mode on the parallel branch *)

(** A task that is handed the normalized token is stopped by the validator
    before it touches anything. *)
Lemma task_rejects_MergeTmp (a : args) (s : state) :
  strandness a = "MergeTmp" ->
  is_Some (region a) ->
  extract_allc_task a s = (Raise mergetmp_error, s).
Proof.
  intros Hst [r Hr].
  unfold extract_allc_task, extract_allc_body, determine_region, bind, lift, ret.
  rewrite Hr, Hst. reflexivity.
Qed.

Lemma submit_rejects_MergeTmp (allc_path output_prefix : string) (mc_contexts : list string)
    (output_format : string) (chrom_size_path : option string) (cov_cutoff : Z)
    (job : nat * string) (files : gmap string string) :
  submit_extract extract_allc_task
    (chunk_task allc_path output_prefix mc_contexts "MergeTmp" output_format
                chrom_size_path cov_cutoff job) files
  = (Ok (Raise mergetmp_error), files).
Proof.
  unfold submit_extract. rewrite task_rejects_MergeTmp; [reflexivity..|].
  simpl. eauto.
Qed.

Lemma futures_all_rejected (allc_path output_prefix : string) (mc_contexts : list string)
    (output_format : string) (chrom_size_path : option string) (cov_cutoff : Z)
    (jobs : list (nat * string)) (futures : list (result (list string)))
    (files : gmap string string) :
  for_fold (fun futures job =>
              call future <-
                submit_extract extract_allc_task
                  (chunk_task allc_path output_prefix mc_contexts "MergeTmp"
                              output_format chrom_size_path cov_cutoff job);
              ret (futures ++ [future]))
           futures jobs files
  = (Ok (futures ++ ((fun _ => Raise mergetmp_error) <$> jobs)), files).
Proof.
  revert futures. induction jobs as [|job jobs IH]; intros futures; simpl.
  - unfold ret. by rewrite app_nil_r.
  - unfold bind at 1 2. rewrite submit_rejects_MergeTmp. unfold ret at 1.
    rewrite IH, <- app_assoc. reflexivity.
Qed.

(** The orchestrator with the normalized token of merge mode: it raises as
    soon as there is one chunk. *)
Lemma orchestrator_MergeTmp (allc_path output_prefix : string) (mc_contexts : list string)
    (output_format : string) (chrom_size_path : option string)
    (cov_cutoff cpu chunk_size : Z) (tabix : bool) (files : gmap string string) :
  _extract_allc_parallel extract_allc_task allc_path output_prefix mc_contexts "MergeTmp"
    output_format chrom_size_path cov_cutoff cpu chunk_size tabix files
  = match genome_region_chunks files chrom_size_path chunk_size with
    | Raise e => (Raise e, files)
    | Ok [] => (Ok [], files)
    | Ok (_ :: _) => (Raise mergetmp_error, files)
    end.
Proof.
  unfold _extract_allc_parallel. unfold bind at 1.
  destruct (genome_region_chunks files chrom_size_path chunk_size) as [regions|e];
    [|reflexivity].
  unfold bind at 1. rewrite futures_all_rejected.
  destruct regions as [|r rs]; simpl.
  - destruct tabix; reflexivity.
  - reflexivity.
Qed.


End Orchestration.

(** * The extractor on concrete files *)



(** C5 at the call [extract_allc('in.allc', 'out', 'CHN', None, 'merge',
    'allc', None, 9999, False, 1)]: the run returns the path
    [out.CHN-Merge.allc.tsv.gz]; no file exists at that path, the records are
    in [out.CHN-Both.allc.tsv.gz], which is not in the returned list. *)
Theorem merge_mode_returns_missing_path :
  let run := @extract_allc Sample.table (Run.call_with "CHN" None "merge" 1)
               (fresh Run.files) in
  fst run = Ok ["out.CHN-Merge.allc.tsv.gz"]
  /\ fs (snd run) !! "out.CHN-Merge.allc.tsv.gz" = None
  /\ fs (snd run) !! "out.CHN-Both.allc.tsv.gz" = Some Run.rec3.
Proof. intros run. repeat split; vm_compute; reflexivity. Qed.

(** The sibling case, context CGN: the returned path is the file written. *)
Example merge_mode_CG_returns_written_path :
  let run := @extract_allc Sample.table (Run.call_with "CGN" None "merge" 1)
               (fresh Run.files) in
  fst run = Ok ["out.CGN-Merge.allc.tsv.gz"]
  /\ fs (snd run) !! "out.CGN-Merge.allc.tsv.gz"
     = Some (Sample.allc_line "chr1" "3" "+" "CGA" "3" "9" "1").
Proof. intros run. repeat split; vm_compute; reflexivity. Qed.




Example merge_mode_two_chunks_raises :
  fst (@extract_allc (Sample.fixed ["chr1"; "chr2"]) (Run.call_with "CGN" None "merge" 2)
         (fresh Run.files))
  = Raise mergetmp_error.
Proof. vm_compute. reflexivity. Qed.



Example parallel_both_handle_still_open :
  let run := @extract_allc (Sample.fixed ["chr1"; "chr2"])
               (Run.call_with "CGN" None "both" 2) (fresh Run.files) in
  fst run = Ok ["out.CGN-Both.allc.tsv.gz"]
  /\ handle_collect (snd run) = [Handle "out.CGN-Both.allc.tsv.gz" 0].
Proof. intros run. split; vm_compute; reflexivity. Qed.


(** C1 at the call [extract_allc('in.allc', 'out', 'CGN', None, 'merge',
    'allc', None, 9999, False, cpu)], whatever the chunker does. With one cpu
    the run returns [out.CGN-Merge.allc.tsv.gz] and writes the collapsed
    record there. With two cpus the parallel branch is taken: the run does not
    return that path and leaves no file at it. *)
Theorem parallel_merge_differs_from_single_pass
    (chunks : gmap string string -> option string -> Z -> result (list string)) :
  let E := Sample.with_chunks chunks in
  let single := @extract_allc E (Run.call_with "CGN" None "merge" 1) (fresh Run.files) in
  let parallel := @extract_allc E (Run.call_with "CGN" None "merge" 2) (fresh Run.files) in
  fst single = Ok ["out.CGN-Merge.allc.tsv.gz"]
  /\ fs (snd single) !! "out.CGN-Merge.allc.tsv.gz"
     = Some (Sample.allc_line "chr1" "3" "+" "CGA" "3" "9" "1")
  /\ fst parallel <> Ok ["out.CGN-Merge.allc.tsv.gz"]
  /\ fs (snd parallel) !! "out.CGN-Merge.allc.tsv.gz" = None.
Proof.
  intros E single parallel.
  split; [vm_compute; reflexivity|]. split; [vm_compute; reflexivity|].
  set (a := Run.call_with "CGN" None "merge" 2) in *.
  set (after_open := open_contexts (Py.rstrip "." (output_prefix a)) "MergeTmp"
                       "allc.tsv.gz" (@requested_contexts E a) (fresh Run.files)).
  assert (Hout : fst after_open = Ok ["out.CGN-Merge.allc.tsv.gz"])
    by (vm_compute; reflexivity).
  assert (Hfile : fs (snd after_open) !! "out.CGN-Merge.allc.tsv.gz" = None)
    by (vm_compute; reflexivity).
  assert (Hrun : parallel
    = lift_fs (@_extract_allc_parallel E (@extract_allc_task E) (allc_path a)
                 (Py.rstrip "." (output_prefix a)) (@requested_contexts E a) "MergeTmp"
                 (output_format a) (chrom_size_path a) (cov_cutoff a) (cpu a)
                 parallel_chunk_size (tabix a)) (snd after_open)).
  { apply (@parallel_branch_run E a (fresh Run.files) (snd after_open) "MergeTmp"
             ("allc.tsv.gz", _extract_allc_format) ["out.CGN-Merge.allc.tsv.gz"]);
      [reflexivity..|].
    rewrite <- Hout. apply surjective_pairing. }
  rewrite Hrun. unfold lift_fs. rewrite orchestrator_MergeTmp.
  destruct (genome_region_chunks _ _ _) as [[|region regions]|e]; simpl;
    (split; [discriminate | exact Hfile]).
Qed.

(** * Further properties of the code *)

(** ** Formats *)

Lemma split_not_nil (sep : ascii) (s : string) : Py.split sep s <> [].
Proof. destruct s as [|c r]; simpl; [done|]. repeat case_match; done. Qed.

Lemma join_split (sep : ascii) (s : string) :
  Py.join (String sep "") (Py.split sep s) = s.
Proof.
  unfold Py.join. induction s as [|c r IH]; simpl; [reflexivity|].
  destruct (Ascii.eqb_spec c sep) as [->|Hne].
  - destruct (Py.split sep r) as [|f fs] eqn:Hs; [by destruct (split_not_nil sep r)|].
    simpl in *. by rewrite IH.
  - destruct (Py.split sep r) as [|f fs] eqn:Hs; [by destruct (split_not_nil sep r)|].
    simpl in *. destruct fs; simpl in *; by rewrite <- IH.
Qed.

(** X1. In the allc format the text written for a record is the input line
    itself, byte for byte: joining the fields [line.split('\t')] with tabs
    gives the line back, whatever the line holds. *)
Theorem allc_format_is_verbatim (line : string) :
  _extract_allc_format (Py.split Py.tab line) = Ok line.
Proof. unfold _extract_allc_format. by rewrite join_split. Qed.

(** ** Strings *)

Lemma append_cons (c : ascii) (s t : string) : String c s +:+ t = String c (s +:+ t).
Proof. reflexivity. Qed.

Lemma append_nil_r (s : string) : s +:+ "" = s.
Proof. induction s as [|c s IH]; [done | by rewrite append_cons, IH]. Qed.

Lemma append_assoc (s t u : string) : (s +:+ t) +:+ u = s +:+ (t +:+ u).
Proof. induction s as [|c s IH]; [done | by rewrite !append_cons, IH]. Qed.

(** ** The router, record by record *)

Lemma grows_refl (files : gmap string string) : grows files files.
Proof. intros p t Hp. exists "". by rewrite append_nil_r. Qed.

Lemma grows_trans (f1 f2 f3 : gmap string string) :
  grows f1 f2 -> grows f2 f3 -> grows f1 f3.
Proof.
  intros H12 H23 p t Hp. destruct (H12 p t Hp) as [u Hu].
  destruct (H23 p _ Hu) as [w Hw]. exists (u +:+ w). by rewrite <- append_assoc.
Qed.

Lemma grows_append_at (path text : string) (files : gmap string string) :
  grows files (append_at path text files).
Proof.
  intros p t Hp. unfold append_at. destruct (decide (path = p)) as [->|Hne].
  - rewrite lookup_insert_eq, Hp. simpl. by exists text.
  - rewrite lookup_insert_ne by done. by apply grows_refl.
Qed.

Lemma only_appends_ret {A} (a : A) : only_appends (ret a).
Proof. intros s r s' [= <- <-]. apply grows_refl. Qed.

Lemma only_appends_lift {A} (r : result A) : only_appends (lift r).
Proof. intros s r' s' [= <- <-]. apply grows_refl. Qed.

Lemma only_appends_bind {A B} (m : M state A) (k : A -> M state B) :
  only_appends m -> (forall a, only_appends (k a)) -> only_appends (bind m k).
Proof.
  intros Hm Hk s r s' Hrun. unfold bind in Hrun.
  destruct (m s) as [[a|e] s1] eqn:Hms.
  - eapply grows_trans; [eapply Hm, Hms | eapply Hk, Hrun].
  - injection Hrun as <- <-. eapply Hm, Hms.
Qed.

Lemma only_appends_for_each {A} (body : A -> M state unit) (l : list A) :
  (forall x, only_appends (body x)) -> only_appends (for_each body l).
Proof.
  intros Hbody. induction l as [|x l IH]; simpl.
  - apply only_appends_ret.
  - apply only_appends_bind; auto.
Qed.

Lemma only_appends_except_KeyError (body : M state unit) :
  only_appends body -> only_appends (except_KeyError body).
Proof.
  intros Hbody s r s' Hrun. unfold except_KeyError in Hrun.
  destruct (body s) as [[[]|e] s1] eqn:Hb.
  - injection Hrun as <- <-. eapply Hbody, Hb.
  - destruct e; injection Hrun as <- <-; eapply Hbody, Hb.
Qed.

Lemma only_appends_write (h : nat) (text : string) : only_appends (handle_write h text).
Proof.
  intros s r s' Hrun. unfold handle_write in Hrun.
  repeat case_match; simplify_eq/=; try apply grows_refl.
  apply grows_append_at.
Qed.

Lemma only_appends_get (k : key) : only_appends (context_handle_get k).
Proof.
  intros s r s' Hrun. unfold context_handle_get in Hrun.
  case_match; simplify_eq/=; apply grows_refl.
Qed.

Lemma only_appends_route_line (split_mode : bool)
    (line_func : list string -> result string) (C : Z) (line : string) :
  only_appends (route_line split_mode line_func C line).
Proof.
  unfold route_line.
  apply only_appends_bind; [apply only_appends_lift|]. intros c5.
  apply only_appends_bind; [apply only_appends_lift|]. intros cov.
  destruct (cov >? C)%Z; [apply only_appends_ret|].
  apply only_appends_except_KeyError, only_appends_bind.
  - destruct split_mode;
      repeat (apply only_appends_bind; [apply only_appends_lift|]; intros ?);
      apply only_appends_ret.
  - intros k. apply only_appends_bind; [apply only_appends_get|]. intros hs.
    apply only_appends_for_each. intros h.
    apply only_appends_bind; [apply only_appends_lift|]. intros text.
    apply only_appends_write.
Qed.

Lemma scan_only_appends_pre (split_mode : bool)
    (line_func : list string -> result string) (C : Z) (lines : list string)
    (s s' : state) (r : result unit) :
  scan split_mode line_func C lines s = (r, s') ->
  grows (fs s) (fs s') /\ handle_collect s' = handle_collect s.
Proof.
  intros Hrun. split.
  - eapply (only_appends_for_each _ lines); [|exact Hrun].
    intros line. apply only_appends_route_line.
  - eapply keeps_handles_scan, Hrun.
Qed.

(** X2. The record scan never removes or shortens a file, and never opens
    or closes a handle: whatever the scan did, and also when it raised, every
    file that existed before still exists and begins with its old text, and
    [handle_collect] is the same. *)
Theorem scan_only_appends (split_mode : bool) (line_func : list string -> result string)
    (C : Z) (lines : list string) (s s' : state) (r : result unit) :
  scan split_mode line_func C lines s = (r, s') ->
  grows (fs s) (fs s') /\ handle_collect s' = handle_collect s.
Proof. apply scan_only_appends_pre. Qed.

(** The input of [Run.damaged]: the scan raises on the second record, and the
    file of the handle has kept the first. *)
Lemma scan_only_appends_witness :
  let s := State {[ "out" := "old" ]} [Handle "out" 0] {[ KContext "CGA" := [0%nat] ]} in
  let run := scan false _extract_allc_format 9999
               [Run.rec1; Sample.allc_line "chr1" "4" "-" "CGT" "1" "NA" "1"] s in
  grows (fs s) (fs (snd run)) /\ handle_collect (snd run) = handle_collect s.
Proof.
  intros s run.
  apply (scan_only_appends false _extract_allc_format 9999
           [Run.rec1; Sample.allc_line "chr1" "4" "-" "CGT" "1" "NA" "1"] s (snd run)
           (fst run)).
  apply surjective_pairing.
Defined.

Lemma bind_ok {S A B} (m : M S A) (k : A -> M S B) (s s' : S) (a : A) :
  m s = (Ok a, s') -> bind m k s = k a s'.
Proof. intros Hm. unfold bind. by rewrite Hm. Qed.

Lemma bind_raise {S A B} (m : M S A) (k : A -> M S B) (s s' : S) (e : exn) :
  m s = (Raise e, s') -> bind m k s = (Raise e, s').
Proof. intros Hm. unfold bind. by rewrite Hm. Qed.

Lemma bind_ext {S A B} (m : M S A) (k1 k2 : A -> M S B) (s : S) :
  (forall a s', k1 a s' = k2 a s') -> bind m k1 s = bind m k2 s.
Proof. intros Hk. unfold bind. destruct (m s) as [[a|e] s']; [apply Hk | reflexivity]. Qed.






Lemma routing_key_getitems (split_mode : bool) (cur_line : list string) (k : key)
    {S} (s : S) :
  routing_key split_mode cur_line = Some k ->
  (if split_mode then
     call c3 <- lift (getitem cur_line 3);
     call c2 <- lift (getitem cur_line 2);
     ret (KContextStrand c3 c2)
   else
     call c3 <- lift (getitem cur_line 3);
     ret (KContext c3)) s = (Ok k, s).
Proof.
  unfold routing_key, bind, lift, ret, getitem. destruct split_mode; simpl.
  - destruct (cur_line !! 3%nat) as [c3|]; [|done]. simpl.
    destruct (cur_line !! 2%nat) as [c2|]; [|done]. by intros [= <-].
  - destruct (cur_line !! 3%nat) as [c3|]; [|done]. by intros [= <-].
Qed.







Lemma for_each_app {S A} (body : A -> M S unit) (l1 l2 : list A) (s : S) :
  for_each body (l1 ++ l2) s = bind (for_each body l1) (fun _ => for_each body l2) s.
Proof.
  revert s. induction l1 as [|x l1 IH]; intros s; simpl; [reflexivity|].
  unfold bind. destruct (body x s) as [[[]|e] s']; [|reflexivity].
  rewrite IH. reflexivity.
Qed.




(** ** The strand collapser as greedy pairing *)













(** ** Merging the chunk files *)

(** The body of the loop of [_merge_gz_files], on a file that exists. *)
Lemma merge_gz_step (output_path file_path text acc : string)
    (files : gmap string string) :
  files !! file_path = Some text ->
  files !! output_path = Some acc ->
  file_path <> output_path ->
  (call text <- (fun files =>
                   match files !! file_path with
                   | Some t => (Ok t, files)
                   | None => (Raise (OSError file_path), files)
                   end);
   exec (fun files =>
           (Ok tt, <[output_path := default "" (files !! output_path) +:+ text]> files));
   rm_f file_path) files
  = (Ok tt, delete file_path (<[output_path := acc +:+ text]> files)).
Proof.
  intros Hfile Hout Hne. unfold bind, rm_f. rewrite Hfile, Hout. reflexivity.
Qed.

Lemma Forall2_same_files (files files' : gmap string string)
    (paths texts : list string) :
  Forall2 (fun path text => files !! path = Some text) paths texts ->
  (forall p, p ∈ paths -> files' !! p = files !! p) ->
  Forall2 (fun path text => files' !! path = Some text) paths texts.
Proof.
  induction 1 as [|p t ps ts Hp Hps IH]; intros Hsame; constructor.
  - rewrite Hsame; [done | by left].
  - apply IH. intros q Hq. apply Hsame. by right.
Qed.

Lemma merge_gz_loop (output_path : string) (file_list texts : list string) (acc : string)
    (files : gmap string string) :
  NoDup file_list ->
  output_path ∉ file_list ->
  Forall2 (fun path text => files !! path = Some text) file_list texts ->
  files !! output_path = Some acc ->
  exists files',
    for_each (fun file_path =>
         call text <- (fun files =>
                         match files !! file_path with
                         | Some t => (Ok t, files)
                         | None => (Raise (OSError file_path), files)
                         end);
         exec (fun files =>
                 (Ok tt, <[output_path := default "" (files !! output_path) +:+ text]> files));
         rm_f file_path) file_list files = (Ok tt, files')
    /\ files' !! output_path = Some (acc +:+ String.concat "" texts)
    /\ (forall p, p ∈ file_list -> files' !! p = None)
    /\ (forall p, p ∉ file_list -> p <> output_path -> files' !! p = files !! p).
Proof.
  intros Hnd Hout Hall. revert acc files Hall.
  induction Hnd as [|x xs Hx Hnd IH] in texts, Hout |- *; intros acc files Hall Hacc.
  - apply Forall2_nil_inv_l in Hall as ->. exists files. simpl.
    rewrite append_nil_r. split; [done|]. split; [done|]. split; [|done].
    intros p Hp. by apply elem_of_nil in Hp.
  - apply Forall2_cons_inv_l in Hall as (t & ts & Ht & Hts & ->).
    apply not_elem_of_cons in Hout as [Hne Hout].
    cbn [for_each]. erewrite bind_ok; [|by apply merge_gz_step].
    destruct (IH ts Hout (acc +:+ t) (delete x (<[output_path := acc +:+ t]> files)))
      as (files' & Hrun & Hres & Hgone & Hother).
    { eapply Forall2_same_files; [exact Hts|]. intros p Hp.
      rewrite lookup_delete_ne, lookup_insert_ne; [done|intros ->; done|intros ->; done]. }
    { rewrite lookup_delete_ne, lookup_insert_eq by done. reflexivity. }
    exists files'. split; [exact Hrun|]. split; [|split].
    + rewrite Hres, append_assoc. f_equal.
      destruct ts; simpl; [by rewrite append_nil_r | reflexivity].
    + intros p [->|Hp]%elem_of_cons; [|by apply Hgone].
      rewrite Hother by done. apply lookup_delete_eq.
    + intros p [Hpx Hp]%not_elem_of_cons Hpo.
      rewrite Hother, lookup_delete_ne, lookup_insert_ne by done. reflexivity.
Qed.

(** X7. [_merge_gz_files] concatenates and consumes. When the listed files
    exist, are pairwise different and none is the output path, the call
    returns the output path; the output file holds the texts of the listed
    files, concatenated in the order of the list (whatever it held before);
    every listed file has been removed; no other file has changed. *)
Theorem merge_gz_files_concatenates (file_list texts : list string) (output_path : string)
    (files : gmap string string) :
  NoDup file_list ->
  output_path ∉ file_list ->
  Forall2 (fun path text => files !! path = Some text) file_list texts ->
  exists files',
    _merge_gz_files file_list output_path files = (Ok output_path, files')
    /\ files' !! output_path = Some (String.concat "" texts)
    /\ (forall p, p ∈ file_list -> files' !! p = None)
    /\ (forall p, p ∉ file_list -> p <> output_path -> files' !! p = files !! p).
Proof.
  intros Hnd Hout Hall. unfold _merge_gz_files.
  destruct (merge_gz_loop output_path file_list texts "" (<[output_path := ""]> files))
    as (files' & Hrun & Hres & Hgone & Hother); [done|done| |apply lookup_insert_eq|].
  { eapply Forall2_same_files; [exact Hall|]. intros p Hp.
    rewrite lookup_insert_ne; [done|intros ->; done]. }
  exists files'.
  erewrite bind_ok; [|reflexivity]. erewrite bind_ok; [|exact Hrun].
  split; [reflexivity|]. split; [exact Hres|]. split; [exact Hgone|].
  intros p Hp Hpo. rewrite Hother, lookup_insert_ne by done. reflexivity.
Qed.

Lemma merge_gz_files_concatenates_witness :
  let files : gmap string string :=
    {[ "out.0.CGN-Both.allc.tsv.gz" := Run.rec1; "out.1.CGN-Both.allc.tsv.gz" := Run.rec4;
       "out.CGN-Both.allc.tsv.gz" := "stale" ]} in
  let file_list := ["out.0.CGN-Both.allc.tsv.gz"; "out.1.CGN-Both.allc.tsv.gz"] in
  exists files',
    _merge_gz_files file_list "out.CGN-Both.allc.tsv.gz" files
    = (Ok "out.CGN-Both.allc.tsv.gz", files')
    /\ files' !! "out.CGN-Both.allc.tsv.gz" = Some (String.concat "" [Run.rec1; Run.rec4])
    /\ (forall p, p ∈ file_list -> files' !! p = None)
    /\ (forall p, p ∉ file_list -> p <> "out.CGN-Both.allc.tsv.gz" ->
                  files' !! p = files !! p).
Proof.
  intros files file_list.
  apply (merge_gz_files_concatenates file_list [Run.rec1; Run.rec4]
           "out.CGN-Both.allc.tsv.gz" files).
  - apply NoDup_cons. split; [|apply NoDup_singleton].
    intros Hin%list_elem_of_singleton. discriminate.
  - intros Hin. apply elem_of_cons in Hin as [Hin|Hin]; [discriminate|].
    apply list_elem_of_singleton in Hin. discriminate.
  - repeat constructor.
Defined.

(** X8. [_merge_gz_files] is not atomic. When a listed file cannot be read,
    because it does not exist or because the list names it a second time, the
    call raises [OSError] for that file; the files listed before it have been
    removed, and the output file is left holding their concatenation. *)
Theorem merge_gz_files_stops_at_missing_file (consumed texts : list string)
    (missing : string) (rest : list string) (output_path : string)
    (files : gmap string string) :
  NoDup consumed ->
  output_path ∉ consumed ->
  Forall2 (fun path text => files !! path = Some text) consumed texts ->
  missing ∈ consumed \/ (files !! missing = None /\ missing <> output_path) ->
  exists files',
    _merge_gz_files (consumed ++ missing :: rest) output_path files
    = (Raise (OSError missing), files')
    /\ files' !! output_path = Some (String.concat "" texts)
    /\ (forall p, p ∈ consumed -> files' !! p = None)
    /\ (forall p, p ∉ consumed -> p <> output_path -> files' !! p = files !! p).
Proof.
  intros Hnd Hout Hall Hmissing. unfold _merge_gz_files.
  destruct (merge_gz_loop output_path consumed texts "" (<[output_path := ""]> files))
    as (files' & Hrun & Hres & Hgone & Hother); [done|done| |apply lookup_insert_eq|].
  { eapply Forall2_same_files; [exact Hall|]. intros p Hp.
    rewrite lookup_insert_ne; [done|intros ->; done]. }
  assert (Hnone : files' !! missing = None).
  { destruct Hmissing as [Hin|[Hnone Hne]]; [by apply Hgone|].
    destruct (decide (missing ∈ consumed)) as [Hin|Hnin]; [by apply Hgone|].
    rewrite Hother, lookup_insert_ne by done. exact Hnone. }
  exists files'.
  erewrite bind_ok; [|reflexivity].
  match goal with |- context [for_each ?body _] =>
    assert (Hloop : for_each body (consumed ++ missing :: rest) (<[output_path := ""]> files)
                    = (Raise (OSError missing), files'))
  end.
  { rewrite for_each_app. erewrite bind_ok; [|exact Hrun]. cbn [for_each].
    erewrite bind_raise; [reflexivity|].
    erewrite bind_raise; [reflexivity|]. by rewrite Hnone. }
  erewrite bind_raise; [|exact Hloop].
  split; [reflexivity|]. split; [exact Hres|]. split; [exact Hgone|].
  intros p Hp Hpo. rewrite Hother, lookup_insert_ne by done. reflexivity.
Qed.

(** The chunk file of chunk 0 is listed twice: the second reading fails. *)
Lemma merge_gz_files_stops_at_missing_file_witness :
  let files : gmap string string := {[ "out.0.x" := Run.rec1; "out.1.x" := Run.rec4 ]} in
  exists files',
    _merge_gz_files (["out.0.x"] ++ "out.0.x" :: ["out.1.x"]) "out.x" files
    = (Raise (OSError "out.0.x"), files')
    /\ files' !! "out.x" = Some (String.concat "" [Run.rec1])
    /\ (forall p, p ∈ ["out.0.x"] -> files' !! p = None)
    /\ (forall p, p ∉ ["out.0.x"] -> p <> "out.x" -> files' !! p = files !! p).
Proof.
  intros files.
  apply (merge_gz_files_stops_at_missing_file ["out.0.x"] [Run.rec1] "out.0.x"
           ["out.1.x"] "out.x" files).
  - apply NoDup_singleton.
  - intros Hin%list_elem_of_singleton. discriminate.
  - repeat constructor.
  - left. by apply list_elem_of_singleton.
Defined.

(** ** When the parallel branch cannot be reached *)

(** X9. The [cpu] argument has no effect as soon as a region or a
    chromosome-size path is given: the chromosome table turns into a region
    before the test [cpu > 1 and region is None], so the call does the same,
    returns the same and leaves the same files and handles for every [cpu]. *)
Theorem cpu_is_ignored_with_region_or_table `{Collaborators} (a : args) (n : Z)
    (s : state) :
  is_Some (region a) \/ is_Some (chrom_size_path a) ->
  extract_allc (with_cpu a n) s = extract_allc a s.
Proof.
  intros Hgiven. unfold extract_allc, extract_allc_body.
  destruct (determine_region a s) as [[reg|e] s1] eqn:Hdr.
  - assert (Hreg : bool_decide (reg = None) = false).
    { apply bool_decide_eq_false. intros Hnone.
      apply (determine_region_spec _ _ _ _ Hdr) in Hnone as [Hr Hc].
      rewrite Hr, Hc in Hgiven. by destruct Hgiven as [[? [=]]|[? [=]]]. }
    erewrite bind_ok; [|exact Hdr]. symmetry. erewrite bind_ok; [|exact Hdr]. symmetry.
    apply bind_ext. intros st s2. apply bind_ext. intros fmt s3.
    apply bind_ext. intros out s4.
    by rewrite Hreg, !andb_false_r.
  - erewrite bind_raise; [|exact Hdr]. symmetry. by erewrite bind_raise; [|exact Hdr].
Qed.

Lemma cpu_is_ignored_with_region_or_table_witness :
  let a := Run.call_with "CGN" (Some "sizes") "split" 1 in
  @extract_allc Sample.table (with_cpu a 8) (fresh Run.files)
  = @extract_allc Sample.table a (fresh Run.files).
Proof.
  intros a.
  apply (@cpu_is_ignored_with_region_or_table Sample.table a 8 (fresh Run.files)).
  right. by eexists.
Defined.

(** ** What [extract_allc] returns *)

Section Returned.
Context `{Collaborators}.

Lemma open_context_result (output_prefix strandness out_suffix mc_context : string)
    (s s' : state) (out : list string) :
  open_context output_prefix strandness out_suffix mc_context s = (Ok out, s') ->
  out = returned_paths output_prefix strandness out_suffix [mc_context]
  /\ handle_collect s'
     = handle_collect s
       ++ (opened <$> handle_paths output_prefix strandness out_suffix [mc_context])
  /\ fs s' = foldl (fun f path => <[path := ""]> f) (fs s)
                   (handle_paths output_prefix strandness out_suffix [mc_context]).
Proof.
  intros Hrun.
  destruct (parse_mc_pattern mc_context) as [X|e] eqn:Hparse.
  2:{ unfold open_context, bind, lift in Hrun. rewrite Hparse in Hrun. discriminate. }
  destruct (open_context_opens output_prefix strandness out_suffix mc_context X s Hparse)
    as (out' & s1 & Hrun' & Hh & Hfs).
  rewrite Hrun in Hrun'. injection Hrun' as <- <-. split; [|by split].
  revert Hrun. unfold open_context, returned_paths, bind, lift. rewrite Hparse. simpl.
  case_bool_decide.
  - unfold open_allc_w. simpl.
    match goal with |- context [for_each ?body ?l ?s1] =>
      destruct (for_each body l s1) as [[[]|e] s2]
    end; unfold ret; by intros [= <- _].
  - unfold open_allc_w. simpl.
    match goal with |- context [for_each ?body ?l ?s1] =>
      destruct (for_each body l s1) as [[[]|e] s2]
    end; unfold ret; by intros [= <- _].
Qed.

Lemma returned_paths_cons (output_prefix strandness out_suffix c : string)
    (cs : list string) :
  returned_paths output_prefix strandness out_suffix (c :: cs)
  = returned_paths output_prefix strandness out_suffix [c]
    ++ returned_paths output_prefix strandness out_suffix cs.
Proof. unfold returned_paths. simpl. by rewrite app_nil_r. Qed.

Lemma open_contexts_result (output_prefix strandness out_suffix : string)
    (mc_contexts : list string) (s s' : state) (out : list string) :
  open_contexts output_prefix strandness out_suffix mc_contexts s = (Ok out, s') ->
  out = returned_paths output_prefix strandness out_suffix mc_contexts
  /\ handle_collect s'
     = handle_collect s
       ++ (opened <$> handle_paths output_prefix strandness out_suffix mc_contexts)
  /\ fs s' = foldl (fun f path => <[path := ""]> f) (fs s)
                   (handle_paths output_prefix strandness out_suffix mc_contexts).
Proof.
  unfold open_contexts.
  assert (Hgen : forall acc s,
    for_fold (fun output_path_collect mc_context =>
                call paths <- open_context output_prefix strandness out_suffix mc_context;
                ret (output_path_collect ++ paths)) acc mc_contexts s = (Ok out, s') ->
    out = acc ++ returned_paths output_prefix strandness out_suffix mc_contexts
    /\ handle_collect s'
       = handle_collect s
         ++ (opened <$> handle_paths output_prefix strandness out_suffix mc_contexts)
    /\ fs s' = foldl (fun f path => <[path := ""]> f) (fs s)
                     (handle_paths output_prefix strandness out_suffix mc_contexts)).
  { clear s. induction mc_contexts as [|c cs IH]; intros acc s Hrun; cbn [for_fold] in Hrun.
    - unfold ret in Hrun. injection Hrun as <- <-. simpl. by rewrite !app_nil_r.
    - unfold bind at 1 2 in Hrun.
      destruct (open_context output_prefix strandness out_suffix c s) as [[ps|e] s1] eqn:Hc;
        [|discriminate].
      destruct (open_context_result _ _ _ _ _ _ _ Hc) as (-> & Hh1 & Hfs1).
      unfold ret in Hrun. destruct (IH _ _ Hrun) as (-> & Hh & Hfs).
      rewrite (returned_paths_cons _ _ _ c cs), (handle_paths_cons _ _ _ c cs),
        Hh, Hh1, Hfs, Hfs1, fmap_app, foldl_app, !app_assoc. done. }
  intros Hrun. by destruct (Hgen [] s Hrun) as (-> & Hh & Hfs).
Qed.

Lemma open_allc_r_state (path : string) (region : option string) (s s' : state)
    (r : result (list string)) :
  open_allc_r path region s = (r, s') -> s' = s.
Proof. unfold open_allc_r. intros Hrun. repeat case_match; by simplify_eq. Qed.

(** Without [tabix], the closing loop does nothing in both and split modes. *)
Lemma post_process_nothing (output_prefix strandness out_suffix : string)
    (mc_contexts : list string) (s : state) :
  strandness <> "MergeTmp" ->
  for_each (post_process output_prefix strandness out_suffix false) mc_contexts s
  = (Ok tt, s).
Proof.
  intros Hst. induction mc_contexts as [|c cs IH]; [reflexivity|].
  cbn [for_each]. erewrite bind_ok; [exact IH|].
  unfold post_process, tabix_if. repeat case_bool_decide; done.
Qed.

Lemma check_strandness_values (strandness st : string) :
  _check_strandness_parameter strandness = Ok st ->
  (st = "Both" /\ Py.lower strandness ∈ ["both"; "b"])
  \/ (st = "MergeTmp" /\ Py.lower strandness ∈ ["merge"; "m"])
  \/ (st = "Split" /\ Py.lower strandness ∈ ["split"; "s"]).
Proof.
  unfold _check_strandness_parameter. repeat case_bool_decide; intros [= <-]; auto.
Qed.

(** X10. What a single pass returns. When [extract_allc] takes the single
    pass and returns, the list it returns holds, for every requested context
    in the order the handles were opened, the Watson and the Crick path in
    split mode, the path labelled Both in both mode, and the path labelled
    Merge in merge mode. In both and split modes these are the paths of the
    handles, and without [tabix] a file exists at each of them when the call
    returns. *)
Theorem single_pass_returns_the_collected_paths (a : args) (s s' : state)
    (paths : list string) :
  parallel_branch a = false ->
  extract_allc a s = (Ok paths, s') ->
  exists st fmt,
    _check_strandness_parameter (strandness a) = Ok st
    /\ _check_out_format_parameter (output_format a) = Ok fmt
    /\ paths = returned_paths (Py.rstrip "." (output_prefix a)) st (fst fmt)
                 (requested_contexts a)
    /\ (st <> "MergeTmp" ->
        paths = handle_paths (Py.rstrip "." (output_prefix a)) st (fst fmt)
                  (requested_contexts a)
        /\ (tabix a = false -> Forall (fun p => is_Some (fs s' !! p)) paths)).
Proof.
  intros Hbranch. unfold extract_allc, extract_allc_body, bind at 1 2 3 4, lift.
  intros Hrun.
  destruct (determine_region a s) as [[reg|e] s0] eqn:Hreg; [|discriminate].
  destruct (determine_region_spec _ _ _ _ Hreg) as [-> Hnone].
  destruct (_check_strandness_parameter (strandness a)) as [st|e] eqn:Hst; [|discriminate].
  destruct (_check_out_format_parameter (output_format a)) as [fmt|e]; [|discriminate].
  destruct (open_contexts _ st (fst fmt) (requested_contexts a) s)
    as [[collected|e] s1] eqn:Hopen; [|discriminate].
  destruct (open_contexts_result _ _ _ _ _ _ _ Hopen) as (-> & Hh1 & Hfs1).
  assert (Hsingle : (cpu a >? 1)%Z && bool_decide (reg = None) = false).
  { unfold parallel_branch in Hbranch.
    destruct (cpu a >? 1)%Z; [|done]. simpl in *.
    apply bool_decide_eq_false. intros Hn. apply Hnone in Hn as [Hr Hc].
    rewrite !bool_decide_true in Hbranch by done. done. }
  rewrite Hsingle in Hrun.
  exists st, fmt. split; [done|]. split; [done|].
  unfold single_pass, bind in Hrun.
  destruct (open_allc_r (allc_path a) reg s1) as [[lines|e] s2] eqn:Hread; [|discriminate].
  apply open_allc_r_state in Hread as ->.
  destruct (scan _ (snd fmt) (cov_cutoff a) lines s1) as [[[]|e] s3] eqn:Hscan;
    [|discriminate].
  rewrite close_handles_closes_each_once in Hrun.
  match type of Hrun with context [for_each ?body ?l ?s4] =>
    destruct (for_each body l s4) as [[[]|e] s5] eqn:Hpost; [|discriminate]
  end.
  unfold ret in Hrun. injection Hrun as <- <-. split; [reflexivity|].
  intros Hmode.
  assert (Hsame : returned_paths (Py.rstrip "." (output_prefix a)) st (fst fmt)
                    (requested_contexts a)
                  = handle_paths (Py.rstrip "." (output_prefix a)) st (fst fmt)
                      (requested_contexts a)).
  { unfold returned_paths, handle_paths. by rewrite (bool_decide_false _ Hmode). }
  split; [exact Hsame|]. intros Htabix. rewrite Htabix in Hpost.
  rewrite post_process_nothing in Hpost by done. injection Hpost as <-. simpl.
  rewrite Hsame. apply Forall_forall. intros p Hp.
  destruct (scan_only_appends_pre _ _ _ _ _ _ _ Hscan) as [Hgrow _].
  destruct (Hgrow p "") as [u Hu]; [|by eexists].
  rewrite Hfs1. apply created_lookup. by left.
Qed.

End Returned.

(** Split mode, context CGN, no [tabix]. *)
Lemma single_pass_returns_the_collected_paths_witness :
  let a := Run.call_with "CGN" (Some "sizes") "split" 1 in
  let run := @extract_allc Sample.table a (fresh Run.files) in
  exists st fmt,
    _check_strandness_parameter (strandness a) = Ok st
    /\ _check_out_format_parameter (output_format a) = Ok fmt
    /\ ["out.CGN-Watson.allc.tsv.gz"; "out.CGN-Crick.allc.tsv.gz"]
       = returned_paths (Py.rstrip "." (output_prefix a)) st (fst fmt)
           (@requested_contexts Sample.table a)
    /\ (st <> "MergeTmp" ->
        ["out.CGN-Watson.allc.tsv.gz"; "out.CGN-Crick.allc.tsv.gz"]
        = handle_paths (Py.rstrip "." (output_prefix a)) st (fst fmt)
            (@requested_contexts Sample.table a)
        /\ (tabix a = false ->
            Forall (fun p => is_Some (fs (snd run) !! p))
                   ["out.CGN-Watson.allc.tsv.gz"; "out.CGN-Crick.allc.tsv.gz"])).
Proof.
  intros a run.
  apply (@single_pass_returns_the_collected_paths Sample.table a (fresh Run.files)
           (snd run) ["out.CGN-Watson.allc.tsv.gz"; "out.CGN-Crick.allc.tsv.gz"]).
  - reflexivity.
  - transitivity (fst run, snd run); [apply surjective_pairing|].
    apply (f_equal (fun r => (r, snd run))). vm_compute. reflexivity.
Defined.

(** ** Chunk file names *)

Lemma lstrip_by_all (p : ascii -> bool) (pre rest : string) :
  all_chars p pre = true -> Py.lstrip_by p (pre +:+ rest) = Py.lstrip_by p rest.
Proof.
  induction pre as [|c pre IH]; [done|]. rewrite append_cons. simpl.
  intros [-> Hpre]%andb_prop. by apply IH.
Qed.

Lemma lstrip_by_stop (p : ascii -> bool) (c : ascii) (rest : string) :
  p c = false -> Py.lstrip_by p (String c rest) = String c rest.
Proof. intros Hc. simpl. by rewrite Hc. Qed.

Lemma char_in_app (c : ascii) (s t : string) :
  Py.char_in c t = true -> Py.char_in c (s +:+ t) = true.
Proof.
  unfold Py.char_in. induction s as [|d s IH]; [done|]. rewrite append_cons. simpl.
  intros Ht. rewrite (IH Ht). apply orb_true_r.
Qed.

Lemma all_chars_own (s t : string) :
  all_chars (fun c => Py.char_in c (t +:+ s)) s = true.
Proof.
  revert t. induction s as [|c s IH]; intros t; [done|]. simpl. apply andb_true_intro. split.
  - apply char_in_app. unfold Py.char_in. simpl. by rewrite Ascii.eqb_refl.
  - specialize (IH (t +:+ String c "")). by rewrite append_assoc in IH.
Qed.

Lemma char_in_all_not (c : ascii) (q : ascii -> bool) (s : string) :
  q c = true -> all_chars (fun d => negb (q d)) s = true -> Py.char_in c s = false.
Proof.
  intros Hc. unfold Py.char_in. induction s as [|d s IH]; [done|]. simpl.
  intros [Hd Hs]%andb_prop. rewrite (IH Hs), orb_false_r.
  destruct (Ascii.eqb_spec c d) as [->|]; [|done]. by rewrite Hc in Hd.
Qed.

(** [prefix.lstrip(prefix)]-style stripping removes at least the prefix. *)
Lemma lstrip_own_prefix (prefix rest : string) :
  Py.lstrip prefix (prefix +:+ rest) = Py.lstrip prefix rest.
Proof. unfold Py.lstrip. apply lstrip_by_all. apply (all_chars_own prefix ""). Qed.

Lemma list_ascii_app (s t : string) :
  list_ascii_of_string (s +:+ t) = list_ascii_of_string s ++ list_ascii_of_string t.
Proof. induction s as [|c s IH]; [done|]. rewrite append_cons. simpl. by rewrite IH. Qed.

Lemma rev_string_snoc (s : string) (c : ascii) :
  Py.rev_string (s +:+ String c "") = String c (Py.rev_string s).
Proof. unfold Py.rev_string. rewrite list_ascii_app, rev_app_distr. reflexivity. Qed.

Lemma rev_string_involutive (s : string) : Py.rev_string (Py.rev_string s) = s.
Proof.
  unfold Py.rev_string.
  by rewrite list_ascii_of_string_of_list_ascii, rev_involutive,
    string_of_list_ascii_of_string.
Qed.

Lemma rstrip_by_stop (p : ascii -> bool) (s : string) (c : ascii) :
  p c = false -> Py.rstrip_by p (s +:+ String c "") = s +:+ String c "".
Proof.
  intros Hc. unfold Py.rstrip_by. rewrite rev_string_snoc, (lstrip_by_stop _ _ _ Hc).
  by rewrite <- rev_string_snoc, rev_string_involutive.
Qed.

Lemma split_first_field (sep : ascii) (field rest : string) :
  all_chars (fun c => negb (Ascii.eqb c sep)) field = true ->
  Py.split sep (field +:+ String sep rest) = field :: Py.split sep rest.
Proof.
  induction field as [|c field IH]; intros Hfield.
  - simpl. by rewrite Ascii.eqb_refl.
  - rewrite append_cons. simpl in *. apply andb_prop in Hfield as [Hc Hfield].
    apply negb_true_iff in Hc. rewrite Hc, (IH Hfield). reflexivity.
Qed.

(** The decimal digits [str] writes. *)
Lemma pretty_N_char_digit (x : N) : Py.is_digit (pretty_N_char x) = true.
Proof. unfold pretty_N_char. repeat case_match; reflexivity. Qed.

Lemma pretty_N_go_digits (x : N) (s : string) :
  all_chars Py.is_digit s = true -> all_chars Py.is_digit (pretty_N_go x s) = true.
Proof.
  revert s. induction (N.lt_wf_0 x) as [x _ IH]; intros s Hs.
  destruct (decide (x = 0%N)) as [->|Hx]; [by rewrite pretty_N_go_0|].
  rewrite pretty_N_go_step by lia. apply IH.
  - apply N.div_lt; lia.
  - simpl. by rewrite pretty_N_char_digit.
Qed.

Lemma pretty_N_go_not_empty (x : N) (s : string) : s <> "" -> pretty_N_go x s <> "".
Proof.
  revert s. induction (N.lt_wf_0 x) as [x _ IH]; intros s Hs.
  destruct (decide (x = 0%N)) as [->|Hx]; [by rewrite pretty_N_go_0|].
  rewrite pretty_N_go_step by lia. apply IH; [apply N.div_lt; lia | done].
Qed.

Lemma str_of_nat_digits (n : nat) :
  exists d ds,
    Py.str (Z.of_nat n) = String d ds /\ all_chars Py.is_digit (String d ds) = true.
Proof.
  unfold Py.str, pretty, pretty_Z. destruct (Z.of_nat n) as [|x|x] eqn:Hn; [| |lia].
  - by exists "0"%char, "".
  - unfold pretty, pretty_positive, pretty, pretty_N.
    rewrite decide_False by done.
    destruct (pretty_N_go (N.pos x) "") as [|d ds] eqn:Hgo.
    + rewrite pretty_N_go_step in Hgo by lia.
      by apply pretty_N_go_not_empty in Hgo.
    + exists d, ds. split; [done|]. rewrite <- Hgo. by apply pretty_N_go_digits.
Qed.

Lemma all_chars_impl (p q : ascii -> bool) (s : string) :
  (forall c, p c = true -> q c = true) -> all_chars p s = true -> all_chars q s = true.
Proof.
  intros Hpq. induction s as [|c s IH]; [done|]. simpl.
  intros [Hc Hs]%andb_prop. by rewrite (Hpq c Hc), IH.
Qed.

Lemma digit_cases (c : ascii) :
  Py.is_digit c = true ->
  c ∈ ["0"; "1"; "2"; "3"; "4"; "5"; "6"; "7"; "8"; "9"]%char.
Proof.
  destruct c as [[] [] [] [] [] [] [] []]; intros Hc; try discriminate Hc;
    rewrite !elem_of_cons; repeat (first [left; reflexivity | right]).
Qed.

Lemma pretty_N_char_value (y : N) :
  (y < 10)%N -> Z.of_N (N_of_ascii (pretty_N_char y) - 48) = Z.of_N y.
Proof.
  intros Hy.
  assert (y = 0 ∨ y = 1 ∨ y = 2 ∨ y = 3 ∨ y = 4 ∨ y = 5 ∨ y = 6 ∨ y = 7 ∨ y = 8 ∨ y = 9)%N
    as Hcases by lia.
  repeat (destruct Hcases as [->|Hcases]; [reflexivity|]). by subst.
Qed.

Lemma digits_pretty_N_go (x : N) :
  (0 < x)%N ->
  exists m : Z, forall (acc : Z) (b : bool) (t : string),
    Py.digits (pretty_N_go x t) acc b = Py.digits t (acc * m + Z.of_N x) true.
Proof.
  induction (N.lt_wf_0 x) as [x _ IH]. intros Hx.
  assert (Hstep : forall t, pretty_N_go x t
                  = pretty_N_go (x `div` 10) (String (pretty_N_char (x `mod` 10)) t))
    by (intros; by apply pretty_N_go_step).
  assert (Hmod : (x `mod` 10 < 10)%N) by (apply N.mod_lt; lia).
  assert (Hdm : Z.of_N x = (10 * Z.of_N (x `div` 10) + Z.of_N (x `mod` 10))%Z).
  { rewrite (N.div_mod x 10) at 1 by lia. lia. }
  destruct (decide (x `div` 10 = 0)%N) as [Hq|Hq].
  - exists 10%Z. intros acc b t. rewrite Hstep, Hq, pretty_N_go_0. simpl.
    rewrite pretty_N_char_digit, pretty_N_char_value by done.
    f_equal. rewrite Hdm, Hq. lia.
  - destruct (IH (x `div` 10)%N) as [m Hm]; [apply N.div_lt; lia | lia |].
    exists (10 * m)%Z. intros acc b t. rewrite Hstep, Hm. simpl.
    rewrite pretty_N_char_digit, pretty_N_char_value by done.
    f_equal. rewrite Hdm. lia.
Qed.

Lemma int_str_of_nat (n : nat) : Py.int (Py.str (Z.of_nat n)) = Some (Z.of_nat n).
Proof.
  destruct (str_of_nat_digits n) as (d & ds & Hid & Hdigits).
  assert (Hnospace : forall c, Py.is_digit c = true -> Py.is_space c = false).
  { intros c Hc%digit_cases. rewrite !elem_of_cons in Hc.
    repeat (destruct Hc as [->|Hc]; [reflexivity|]). by apply elem_of_nil in Hc. }
  assert (Hlast : exists body last, String d ds = body +:+ String last ""
                                    /\ Py.is_digit last = true).
  { clear Hid. revert d Hdigits. induction ds as [|c ds IH]; intros d Hdigits.
    - exists "", d. split; [done|]. simpl in Hdigits. by apply andb_prop in Hdigits as [].
    - simpl in Hdigits. apply andb_prop in Hdigits as [Hd Hds].
      destruct (IH c Hds) as (body & last & Heq & Hl).
      exists (String d body), last. rewrite append_cons, <- Heq. done. }
  destruct Hlast as (body & last & Hsnoc & Hl).
  assert (Hd : Py.is_digit d = true) by (simpl in Hdigits; by apply andb_prop in Hdigits as []).
  unfold Py.int. rewrite Hid, (lstrip_by_stop _ _ _ (Hnospace d Hd)).
  rewrite Hsnoc, (rstrip_by_stop _ _ _ (Hnospace last Hl)), <- Hsnoc.
  assert (Hdig : Py.digits (String d ds) 0 false = Some (Z.of_nat n)).
  { rewrite <- Hid. unfold Py.str, pretty, pretty_Z.
    destruct (Z.of_nat n) as [|x|x] eqn:Hn; [reflexivity| |lia].
    unfold pretty, pretty_positive, pretty, pretty_N. rewrite decide_False by done.
    destruct (digits_pretty_N_go (N.pos x)) as [m Hm]; [lia|].
    rewrite Hm. simpl. f_equal; lia. }
  apply digit_cases in Hd. rewrite !elem_of_cons in Hd.
  repeat (destruct Hd as [->|Hd]; [exact Hdig|]). by apply elem_of_nil in Hd.
Qed.

(** X11. The orchestrator reads a chunk file name back correctly when the
    prefix holds no dot or no decimal digit. For such a prefix, the path
    [prefix.n.suffix] of chunk number [n], with a suffix that does not end in
    a dot, is split into the chunk id [str(n)] and the full suffix: the
    [lstrip] by the characters of the prefix stops before the chunk id; and
    reading the chunk id as an integer gives [n] back. *)
Theorem chunk_record_reads_chunk_path (output_prefix body : string) (last : ascii) (n : nat) :
  all_chars (fun c => negb (is_dot c)) output_prefix = true
  \/ all_chars (fun c => negb (Py.is_digit c)) output_prefix = true ->
  is_dot last = false ->
  let suffix := body +:+ String last "" in
  let path := output_prefix +:+ "." +:+ Py.str (Z.of_nat n) +:+ "." +:+ suffix in
  chunk_record output_prefix path = (path, Py.str (Z.of_nat n), suffix)
  /\ to_int (Py.str (Z.of_nat n)) = Ok (Z.of_nat n).
Proof.
  intros Hprefix Hlast suffix path.
  split; [|unfold to_int; by rewrite int_str_of_nat].
  destruct (str_of_nat_digits n) as (d & ds & Hid & Hdigits).
  assert (Hd : Py.is_digit d = true) by (simpl in Hdigits; by apply andb_prop in Hdigits as []).
  assert (Hdot_d : Py.char_in d "." = false).
  { unfold Py.char_in. simpl. rewrite orb_false_r.
    destruct (Ascii.eqb_spec d "."%char) as [->|]; [discriminate|done]. }
  assert (Hstrip : Py.strip "." (Py.lstrip output_prefix path)
                   = Py.str (Z.of_nat n) +:+ "." +:+ suffix).
  { unfold path. rewrite lstrip_own_prefix.
    assert (Hrstrip : Py.rstrip "." (Py.str (Z.of_nat n) +:+ "." +:+ suffix)
                      = Py.str (Z.of_nat n) +:+ "." +:+ suffix).
    { unfold suffix, Py.rstrip.
      replace (Py.str (Z.of_nat n) +:+ "." +:+ body +:+ String last "")
        with ((Py.str (Z.of_nat n) +:+ "." +:+ body) +:+ String last "")
        by (by rewrite !append_assoc).
      apply rstrip_by_stop. unfold Py.char_in. simpl. unfold is_dot in Hlast.
      by rewrite Hlast. }
    assert (Hhead : forall chars, Py.char_in d chars = false ->
              Py.lstrip chars (Py.str (Z.of_nat n) +:+ "." +:+ suffix)
              = Py.str (Z.of_nat n) +:+ "." +:+ suffix).
    { intros chars Hc. rewrite Hid, append_cons. unfold Py.lstrip.
      by apply lstrip_by_stop. }
    unfold Py.strip.
    destruct (Py.char_in "." output_prefix) eqn:Hdot.
    - (* the dot is stripped with the prefix: the prefix holds no digit *)
      assert (Hnodigit : Py.char_in d output_prefix = false).
      { destruct Hprefix as [Hnodot|Hnodigit].
        - by rewrite (char_in_all_not "." is_dot output_prefix eq_refl Hnodot) in Hdot.
        - by apply (char_in_all_not d Py.is_digit). }
      change ("." +:+ Py.str (Z.of_nat n) +:+ "." +:+ suffix)
        with (String "." (Py.str (Z.of_nat n) +:+ "." +:+ suffix)).
      unfold Py.lstrip at 2. cbn [Py.lstrip_by]. rewrite Hdot.
      fold (Py.lstrip output_prefix (Py.str (Z.of_nat n) +:+ "." +:+ suffix)).
      by rewrite (Hhead _ Hnodigit), (Hhead _ Hdot_d).
    - change ("." +:+ Py.str (Z.of_nat n) +:+ "." +:+ suffix)
        with (String "." (Py.str (Z.of_nat n) +:+ "." +:+ suffix)).
      unfold Py.lstrip at 2. rewrite (lstrip_by_stop _ _ _ Hdot).
      unfold Py.lstrip at 1. cbn [Py.lstrip_by]. unfold Py.char_in at 1. simpl.
      fold (Py.lstrip "." (Py.str (Z.of_nat n) +:+ "." +:+ suffix)).
      by rewrite (Hhead _ Hdot_d). }
  unfold chunk_record. rewrite Hstrip.
  change (Py.str (Z.of_nat n) +:+ "." +:+ suffix)
    with (Py.str (Z.of_nat n) +:+ String "." suffix).
  rewrite split_first_field.
  - by rewrite join_split.
  - rewrite Hid. eapply all_chars_impl; [|exact Hdigits].
    intros c Hc. apply negb_true_iff.
    destruct (Ascii.eqb_spec c "."%char) as [->|]; [discriminate|done].
Qed.

Lemma chunk_record_reads_chunk_path_witness :
  chunk_record "results/out" "results/out.12.CGN-Both.allc.tsv.gz"
  = ("results/out.12.CGN-Both.allc.tsv.gz", "12", "CGN-Both.allc.tsv.gz")
  /\ to_int "12" = Ok 12%Z.
Proof.
  apply (chunk_record_reads_chunk_path "results/out" "CGN-Both.allc.tsv.g" "z" 12).
  - left. reflexivity.
  - reflexivity.
Defined.

(** With a dot and the digit of the chunk id in the prefix, the chunk id is
    stripped with the prefix and the context is taken for it. *)
Example chunk_record_misreads_with_dot_and_digit :
  chunk_record "sample.10" "sample.10.0.CGN-Both.allc.tsv.gz"
  = ("sample.10.0.CGN-Both.allc.tsv.gz", "CGN-Both", "allc.tsv.gz").
Proof. reflexivity. Qed.

(** ** Split mode keeps the strands apart *)

Lemma strand_entry_app (output_prefix out_suffix : string) (mc_contexts : list string)
    (hc more : list handle) (k : key) (h : nat) :
  strand_entry output_prefix out_suffix mc_contexts hc k h ->
  strand_entry output_prefix out_suffix mc_contexts (hc ++ more) k h.
Proof.
  intros (pat & ctx & Hctx & [[-> Hh]|[-> Hh]]); exists pat, ctx; (split; [done|]);
    [left|right]; (split; [done|]); by apply lookup_app_l_Some.
Qed.

Lemma append_keeps_strand_table (output_prefix out_suffix : string)
    (mc_contexts : list string) (k : key) (h : nat) (s : state) :
  strand_table output_prefix out_suffix mc_contexts s ->
  strand_entry output_prefix out_suffix mc_contexts (handle_collect s) k h ->
  exists s',
    context_handle_append k h s = (Ok tt, s')
    /\ strand_table output_prefix out_suffix mc_contexts s'
    /\ handle_collect s' = handle_collect s
    /\ fs s' = fs s.
Proof.
  intros Htable Hentry. unfold context_handle_append, context_handle_get, bind.
  destruct (context_handle s !! k) as [hs|] eqn:Hk; eexists; (split; [reflexivity|]);
    (split; [|done]); intros k' hs' h' Hk' Hh'; simpl in *.
  - destruct (decide (k = k')) as [<-|Hne].
    + rewrite lookup_insert_eq in Hk'. injection Hk' as <-.
      apply elem_of_app in Hh' as [Hh'|Hh'%list_elem_of_singleton]; [|by subst].
      eapply Htable; eauto.
    + rewrite lookup_insert_ne in Hk' by done. eapply Htable; eauto.
  - destruct (decide (k = k')) as [<-|Hne].
    + rewrite lookup_insert_eq in Hk'. injection Hk' as <-.
      apply list_elem_of_singleton in Hh' as ->. done.
    + rewrite !lookup_insert_ne in Hk' by done. eapply Htable; eauto.
Qed.

Section Strands.
Context `{Collaborators}.

Lemma open_context_strand_table (output_prefix out_suffix : string)
    (mc_contexts : list string) (mc_context : string) (s s' : state)
    (out : list string) :
  mc_context ∈ mc_contexts ->
  strand_table output_prefix out_suffix mc_contexts s ->
  open_context output_prefix "Split" out_suffix mc_context s = (Ok out, s') ->
  strand_table output_prefix out_suffix mc_contexts s'.
Proof.
  intros Hctx Htable. unfold open_context, bind at 1, lift.
  destruct (parse_mc_pattern mc_context) as [X|e]; [|discriminate].
  rewrite bool_decide_true by done.
  unfold bind at 1 2, open_allc_w. cbn [fs handle_collect context_handle].
  set (w := path_of output_prefix mc_context "Watson" out_suffix).
  set (c := path_of output_prefix mc_context "Crick" out_suffix).
  set (hc := (handle_collect s ++ [Handle w 0]) ++ [Handle c 0]).
  set (s1 := State _ hc (context_handle s)).
  assert (Hs1 : strand_table output_prefix out_suffix mc_contexts s1).
  { intros k hs h Hk Hh. unfold s1, hc. simpl in *. rewrite <- app_assoc.
    apply strand_entry_app. eapply Htable; eauto. }
  assert (Hloop : forall pats s2,
    strand_table output_prefix out_suffix mc_contexts s2 ->
    handle_collect s2 = hc ->
    exists s3,
      for_each (fun mc_pattern =>
                  exec context_handle_append (KContextStrand mc_pattern "+")
                         (length (handle_collect s));
                  context_handle_append (KContextStrand mc_pattern "-")
                         (length (handle_collect s ++ [Handle w 0]))) pats s2
      = (Ok tt, s3)
      /\ strand_table output_prefix out_suffix mc_contexts s3).
  { induction pats as [|pat pats IH]; intros s2 Hs2 Hhc; [by exists s2|].
    cbn [for_each].
    destruct (append_keeps_strand_table output_prefix out_suffix mc_contexts
                (KContextStrand pat "+") (length (handle_collect s)) s2 Hs2)
      as (s3 & Hr3 & Hs3 & Hh3 & _).
    { exists pat, mc_context. split; [done|]. left. split; [done|].
      rewrite Hhc. unfold hc. rewrite <- app_assoc.
      by apply (list_lookup_middle _ [Handle c 0]). }
    destruct (append_keeps_strand_table output_prefix out_suffix mc_contexts
                (KContextStrand pat "-") (length (handle_collect s ++ [Handle w 0])) s3 Hs3)
      as (s4 & Hr4 & Hs4 & Hh4 & _).
    { exists pat, mc_context. split; [done|]. right. split; [done|].
      rewrite Hh3, Hhc. unfold hc. by apply (list_lookup_middle _ []). }
    erewrite bind_ok; [|by erewrite bind_ok; [exact Hr4 | exact Hr3]].
    apply IH; [done | congruence]. }
  destruct (Hloop (set_iter X) s1 Hs1 eq_refl) as (s3 & Hr & Hs3).
  erewrite bind_ok; [|exact Hr]. unfold ret. by intros [= _ <-].
Qed.

Lemma open_contexts_strand_table (output_prefix out_suffix : string)
    (mc_contexts : list string) (s s' : state) (out : list string) :
  context_handle s = ∅ ->
  open_contexts output_prefix "Split" out_suffix mc_contexts s = (Ok out, s') ->
  strand_table output_prefix out_suffix mc_contexts s'.
Proof.
  intros Hempty. unfold open_contexts.
  assert (Hgen : forall cs acc s,
    (forall c, c ∈ cs -> c ∈ mc_contexts) ->
    strand_table output_prefix out_suffix mc_contexts s ->
    for_fold (fun output_path_collect mc_context =>
                call paths <- open_context output_prefix "Split" out_suffix mc_context;
                ret (output_path_collect ++ paths)) acc cs s = (Ok out, s') ->
    strand_table output_prefix out_suffix mc_contexts s').
  { clear s Hempty. induction cs as [|c cs IH]; intros acc s Hsub Htable Hrun;
      cbn [for_fold] in Hrun.
    - unfold ret in Hrun. by injection Hrun as _ <-.
    - unfold bind at 1 2 in Hrun.
      destruct (open_context output_prefix "Split" out_suffix c s) as [[ps|e] s1] eqn:Hc;
        [|discriminate].
      unfold ret in Hrun. eapply IH; [|
        eapply open_context_strand_table; [|exact Htable|exact Hc] |exact Hrun].
      + intros c' Hc'. apply Hsub. by right.
      + apply Hsub. by left. }
  apply Hgen; [done|]. intros k hs h Hk. by rewrite Hempty, lookup_empty in Hk.
Qed.

End Strands.

(** What one write loop can change: the files of the handles it is given. *)
Lemma for_each_write_touches (line_func : list string -> result string)
    (cur_line : list string) (hs : list nat) (s s' : state) (r : result unit) :
  for_each (fun h => call text <- lift (line_func cur_line); handle_write h text) hs s
  = (r, s') ->
  handle_collect s' = handle_collect s
  /\ context_handle s' = context_handle s
  /\ forall p, fs s' !! p <> fs s !! p ->
       exists h hd, h ∈ hs /\ handle_collect s !! h = Some hd /\ h_path hd = p.
Proof.
  revert s. induction hs as [|h hs IH]; intros s Hrun; cbn [for_each] in Hrun.
  - unfold ret in Hrun. injection Hrun as <- <-. by repeat split.
  - unfold bind at 1 in Hrun.
    destruct ((call text <- lift (line_func cur_line); handle_write h text) s)
      as [[[]|e] s1] eqn:Hstep.
    2:{ injection Hrun as <- <-.
        unfold bind, lift, handle_write in Hstep.
        repeat case_match; simplify_eq/=; by repeat split. }
    assert (Hs1 : handle_collect s1 = handle_collect s
                  /\ context_handle s1 = context_handle s
                  /\ forall p, fs s1 !! p <> fs s !! p ->
                       exists hd, handle_collect s !! h = Some hd /\ h_path hd = p).
    { unfold bind, lift, handle_write in Hstep.
      repeat case_match; simplify_eq/=. repeat split; try done.
      intros p Hp. eexists. split; [done|].
      destruct (decide (h_path h0 = p)) as [|Hne]; [done|].
      by rewrite lookup_insert_ne in Hp. }
    destruct Hs1 as (Hh1 & Hc1 & Hf1).
    destruct (IH _ Hrun) as (Hh & Hc & Hf).
    split; [congruence|]. split; [congruence|].
    intros p Hp. destruct (decide (fs s1 !! p = fs s !! p)) as [Heq|Hne].
    + destruct (Hf p) as (h' & hd & Hin & Hl & Hpath); [congruence|].
      exists h', hd. split; [by right|]. by rewrite <- Hh1.
    + destruct (Hf1 p Hne) as (hd & Hl & Hpath). exists h, hd. split; [by left|done].
Qed.

(** What the routing of one record can change: the files of the handles
    listed under its key. *)
Lemma route_line_touches (split_mode : bool) (line_func : list string -> result string)
    (C : Z) (line : string) (s s' : state) (r : result unit) :
  route_line split_mode line_func C line s = (r, s') ->
  forall p, fs s' !! p <> fs s !! p ->
    exists k hs h hd,
      routing_key split_mode (Py.split Py.tab line) = Some k
      /\ context_handle s !! k = Some hs /\ h ∈ hs
      /\ handle_collect s !! h = Some hd /\ h_path hd = p.
Proof.
  unfold route_line, bind at 1 2, lift at 1 2. intros Hrun p Hp.
  destruct (getitem (Py.split Py.tab line) 5) as [c5|e]; [|by simplify_eq].
  destruct (to_int c5) as [cov|e]; [|by simplify_eq].
  destruct (cov >? C)%Z; [unfold ret in Hrun; by simplify_eq|].
  unfold except_KeyError, bind at 1 in Hrun.
  destruct (routing_key split_mode (Py.split Py.tab line)) as [k|] eqn:Hkey.
  2:{ exfalso. revert Hrun. unfold routing_key in Hkey.
      unfold bind, lift, ret, getitem. destruct split_mode; simpl in Hkey;
        repeat case_match; simplify_eq/=; intros; simplify_eq/=; done. }
  rewrite (routing_key_getitems _ _ _ _ Hkey) in Hrun.
  unfold bind at 1, context_handle_get at 1 in Hrun.
  destruct (context_handle s !! k) as [hs|] eqn:Hhs.
  - destruct (for_each _ hs s) as [r1 s1] eqn:Hloop.
    apply for_each_write_touches in Hloop as (_ & _ & Hf).
    assert (s1 = s') as -> by (repeat case_match; by simplify_eq).
    destruct (Hf p Hp) as (h & hd & Hin & Hl & Hpath). by exists k, hs, h, hd.
  - simpl in Hrun. unfold ret in Hrun. by simplify_eq/=.
Qed.

(** Routing a record adds at most empty entries to the routing table. *)
Lemma route_line_table (split_mode : bool) (line_func : list string -> result string)
    (C : Z) (line : string) (s s' : state) (r : result unit) :
  route_line split_mode line_func C line s = (r, s') ->
  forall k hs, context_handle s' !! k = Some hs ->
               hs = [] \/ context_handle s !! k = Some hs.
Proof.
  unfold route_line, bind at 1 2, lift at 1 2. intros Hrun k hs Hk.
  destruct (getitem (Py.split Py.tab line) 5) as [c5|e]; [|simplify_eq; by right].
  destruct (to_int c5) as [cov|e]; [|simplify_eq; by right].
  destruct (cov >? C)%Z; [unfold ret in Hrun; simplify_eq; by right|].
  unfold except_KeyError, bind at 1 in Hrun.
  match type of Hrun with context [match ?m s with _ => _ end] =>
    destruct (m s) as [[k0|e] s0] eqn:Hkey
  end.
  2:{ assert (s0 = s) as ->.
      { revert Hkey. unfold bind, lift, ret. destruct split_mode;
          repeat case_match; intros; by simplify_eq. }
      simplify_eq. destruct e; simplify_eq; by right. }
  assert (s0 = s) as ->.
  { revert Hkey. unfold bind, lift, ret. destruct split_mode;
      repeat case_match; intros; by simplify_eq. }
  unfold bind at 1, context_handle_get at 1 in Hrun.
  destruct (context_handle s !! k0) as [hs0|] eqn:Hhs.
  - destruct (for_each _ hs0 s) as [r1 s1] eqn:Hloop.
    apply for_each_write_touches in Hloop as (_ & Hc & _).
    assert (s1 = s') as -> by (repeat case_match; by simplify_eq).
    right. by rewrite <- Hc.
  - simpl in Hrun. unfold ret in Hrun. simplify_eq/=.
    destruct (decide (k0 = k)) as [->|Hne].
    + rewrite lookup_insert_eq in Hk. left. by simplify_eq.
    + rewrite lookup_insert_ne in Hk by done. by right.
Qed.

Lemma scan_strand_table (output_prefix out_suffix : string) (mc_contexts : list string)
    (line_func : list string -> result string) (C : Z) (lines : list string)
    (s s' : state) (r : result unit) :
  strand_table output_prefix out_suffix mc_contexts s ->
  scan true line_func C lines s = (r, s') ->
  strand_table output_prefix out_suffix mc_contexts s'.
Proof.
  unfold scan. revert s. induction lines as [|line lines IH]; intros s Htable Hrun;
    cbn [for_each] in Hrun.
  - unfold ret in Hrun. by simplify_eq.
  - unfold bind at 1 in Hrun.
    destruct (route_line true line_func C line s) as [[[]|e] s1] eqn:Hstep.
    + eapply IH; [|exact Hrun]. intros k hs h Hk Hh.
      rewrite (keeps_handles_route_line _ _ _ _ _ _ _ Hstep).
      destruct (route_line_table _ _ _ _ _ _ _ Hstep k hs Hk) as [->|Hk'].
      * by apply elem_of_nil in Hh.
      * eapply Htable; eauto.
    + simplify_eq. intros k hs h Hk Hh.
      rewrite (keeps_handles_route_line _ _ _ _ _ _ _ Hstep).
      destruct (route_line_table _ _ _ _ _ _ _ Hstep k hs Hk) as [->|Hk'].
      * by apply elem_of_nil in Hh.
      * eapply Htable; eauto.
Qed.

(** X12. Split mode keeps the strands apart. After the handles were opened
    in split mode, at any point of the scan, a record can only change the
    Watson file of a requested context when its strand field is [+], and only
    the Crick file of a requested context when it is [-]; a record with any
    other strand field changes no file. *)
Theorem split_mode_separates_strands `{Collaborators}
    (output_prefix out_suffix : string) (mc_contexts : list string)
    (line_func : list string -> result string) (C : Z)
    (s0 s1 s s' : state) (out : list string) (before : list string) (line : string)
    (r0 r : result unit) :
  context_handle s0 = ∅ ->
  open_contexts output_prefix "Split" out_suffix mc_contexts s0 = (Ok out, s1) ->
  scan true line_func C before s1 = (r0, s) ->
  route_line true line_func C line s = (r, s') ->
  forall p, fs s' !! p <> fs s !! p ->
    exists mc_context,
      mc_context ∈ mc_contexts
      /\ ((Py.split Py.tab line !! 2%nat = Some "+"
           /\ p = path_of output_prefix mc_context "Watson" out_suffix)
          \/ (Py.split Py.tab line !! 2%nat = Some "-"
              /\ p = path_of output_prefix mc_context "Crick" out_suffix)).
Proof.
  intros Hempty Hopen Hscan Hroute p Hp.
  pose proof (open_contexts_strand_table _ _ _ _ _ _ Hempty Hopen) as Ht1.
  pose proof (scan_strand_table _ _ _ _ _ _ _ _ _ Ht1 Hscan) as Ht.
  destruct (route_line_touches _ _ _ _ _ _ _ Hroute p Hp)
    as (k & hs & h & hd & Hkey & Hk & Hh & Hl & Hpath).
  destruct (Ht k hs h Hk Hh) as (pat & ctx & Hctx & Hentry).
  exists ctx. split; [done|].
  unfold routing_key in Hkey. simpl in Hkey.
  destruct (Py.split Py.tab line !! 3%nat) as [c3|]; [|done]. simpl in Hkey.
  destruct (Py.split Py.tab line !! 2%nat) as [c2|]; [|done]. simpl in Hkey.
  injection Hkey as <-.
  destruct Hentry as [[[= -> ->] Hw]|[[= -> ->] Hc]]; [left|right];
    (split; [done|]); rewrite Hl in *; by simplify_eq/=.
Qed.

(** Contexts CGN and CHN opened in split mode on a fresh state; after the
    first record ([+], CGA), the second one ([-], CGT) arrives and changes the
    Crick file of CGN. *)
Lemma split_mode_separates_strands_witness :
  let s1 := snd (@open_contexts Sample.table "out" "Split" "allc.tsv.gz" ["CGN"; "CHN"]
                   (fresh Run.files)) in
  let s := snd (scan true _extract_allc_format 9999 [Run.rec1] s1) in
  let s' := snd (route_line true _extract_allc_format 9999 Run.rec2 s) in
  fs s' !! "out.CGN-Crick.allc.tsv.gz" <> fs s !! "out.CGN-Crick.allc.tsv.gz"
  /\ exists mc_context,
       mc_context ∈ ["CGN"; "CHN"]
       /\ ((Py.split Py.tab Run.rec2 !! 2%nat = Some "+"
            /\ "out.CGN-Crick.allc.tsv.gz"
               = path_of "out" mc_context "Watson" "allc.tsv.gz")
           \/ (Py.split Py.tab Run.rec2 !! 2%nat = Some "-"
               /\ "out.CGN-Crick.allc.tsv.gz"
                  = path_of "out" mc_context "Crick" "allc.tsv.gz")).
Proof.
  intros s1 s s'.
  assert (Hchanged : fs s' !! "out.CGN-Crick.allc.tsv.gz"
                     <> fs s !! "out.CGN-Crick.allc.tsv.gz")
    by (vm_compute; discriminate).
  split; [exact Hchanged|].
  apply (@split_mode_separates_strands Sample.table "out" "allc.tsv.gz" ["CGN"; "CHN"]
           _extract_allc_format 9999 (fresh Run.files) s1 s s'
           ["out.CGN-Watson.allc.tsv.gz"; "out.CGN-Crick.allc.tsv.gz";
            "out.CHN-Watson.allc.tsv.gz"; "out.CHN-Crick.allc.tsv.gz"]
           [Run.rec1] Run.rec2 (Ok tt) (Ok tt)).
  - reflexivity.
  - transitivity (fst (@open_contexts Sample.table "out" "Split" "allc.tsv.gz"
                         ["CGN"; "CHN"] (fresh Run.files)), s1);
      [apply surjective_pairing|].
    apply (f_equal (fun r => (r, s1))). vm_compute. reflexivity.
  - transitivity (fst (scan true _extract_allc_format 9999 [Run.rec1] s1), s);
      [apply surjective_pairing|].
    apply (f_equal (fun r => (r, s))). vm_compute. reflexivity.
  - transitivity (fst (route_line true _extract_allc_format 9999 Run.rec2 s), s');
      [apply surjective_pairing|].
    apply (f_equal (fun r => (r, s'))). vm_compute. reflexivity.
  - exact Hchanged.
Defined.

(** ** Post-processing in merge mode *)



(** ** A failed chunk *)

Section Chunks.
Context `{Collaborators}.
Variable task : args -> M state (list string).




End Chunks.

